(** * Victron VM-3P75CT power meter poller: register decoding, register access
    with fallback, snapshot assembly and power-factor derivation.

    Shallow embedding of [powermeter_via_ip.py].  Python integers are [Z]
    (unbounded, bit operations on the infinite two's-complement form), Python
    floats are the IEEE 754 binary64 numbers of [PrimFloat], [None] is
    [option], a raised exception is the [Raise] branch of [Res], and the
    dictionary built by [read_all] is a finite map from field names. *)

From Stdlib Require Import ZArith Lia List Floats.
From stdpp Require Import base option list gmap strings.

Local Open Scope Z_scope.

(* Decimal float literals denote the nearest binary64 number, as in Python. *)
#[local] Set Warnings "-inexact-float".

(* ------------------------------------------------------------------------- *)
(** ** Exceptions and results *)

(** The exceptions the script can raise by itself. *)
Inductive PyExc : Type :=
| ValueError (msg : string)
| TypeError (msg : string)
| KeyError (key : string)
| IndexError (msg : string).

(** Outcome of evaluating a Python expression: a value or a raised exception. *)
Inductive Res (A : Type) : Type :=
| Ret (a : A)
| Raise (e : PyExc).

Arguments Ret {A} a.
Arguments Raise {A} e.

Definition res_bind {A B : Type} (r : Res A) (k : A -> Res B) : Res B :=
  match r with
  | Ret a => k a
  | Raise e => Raise e
  end.

Declare Scope res_scope.
Delimit Scope res_scope with res.
Notation "'let?' x := r 'in' k" :=
  (res_bind r (fun x => k))
  (at level 10, x name, r at level 100, k at level 200)
  : res_scope.
Local Open Scope res_scope.

(** [raises r] : evaluating [r] ends in an exception. *)
Definition raises {A : Type} (r : Res A) : Prop := exists e, r = Raise e.

(* ------------------------------------------------------------------------- *)
(** ** Configuration parameters *)

Definition PORT : Z := 502.
Definition DEVICE_ID : Z := 1.

(* ------------------------------------------------------------------------- *)
(** ** Helper functions for numeric decoding *)

(** Python's [a << n] on integers: a negative shift count raises
    [ValueError]. *)
Definition py_lshift (a n : Z) : Res Z :=
  if n <? 0 then Raise (ValueError "negative shift count")
  else Ret (Z.shiftl a n).

(** [_twos_complement(value, bits)]:
<<
    if value & (1 << (bits - 1)):
        value -= 1 << bits
    return value
>> *)
Definition _twos_complement (value bits : Z) : Res Z :=
  let? mask := py_lshift 1 (bits - 1) in
  if negb (Z.land value mask =? 0) then
    let? modulus := py_lshift 1 bits in
    Ret (value - modulus)
  else Ret value.

(** [registers[i]] on a Python list, for a non-negative literal index. *)
Definition py_index (registers : list Z) (i : nat) : Res Z :=
  match registers !! i with
  | Some r => Ret r
  | None => Raise (IndexError "list index out of range")
  end.

(** [decode_int16(registers, signed)]. *)
Definition decode_int16 (registers : list Z) (signed : bool) : Res Z :=
  if negb (length registers =? 1)%nat then
    Raise (ValueError "decode_int16 expects exactly 1 register")
  else
    let? r0 := py_index registers 0 in
    let raw := Z.land r0 0xFFFF in
    if signed then _twos_complement raw 16 else Ret raw.

(** [decode_int32(registers, signed)]: high word first, then low word. *)
Definition decode_int32 (registers : list Z) (signed : bool) : Res Z :=
  if negb (length registers =? 2)%nat then
    Raise (ValueError "decode_int32 expects exactly 2 registers")
  else
    let? r0 := py_index registers 0 in
    let hi := Z.land r0 0xFFFF in
    let? r1 := py_index registers 1 in
    let lo := Z.land r1 0xFFFF in
    let raw := Z.lor (Z.shiftl hi 16) lo in
    if signed then _twos_complement raw 32 else Ret raw.

(* ------------------------------------------------------------------------- *)
(** ** Python floats *)

(** [float(z)] for an integer that a binary64 number holds exactly
    ([|z| < 2^53], which covers every decoded 16- and 32-bit register value);
    this is the conversion [raw * scale] applies to its integer operand. *)
Definition float_of_int (z : Z) : float :=
  if z <? 0 then PrimFloat.opp (PrimFloat.of_uint63 (Uint63.of_Z (- z)))
  else PrimFloat.of_uint63 (Uint63.of_Z z).

(** [raw * scale] with [raw] an integer and [scale] a float. *)
Definition int_mul_float (raw : Z) (scale : float) : float :=
  PrimFloat.mul (float_of_int raw) scale.

(* ------------------------------------------------------------------------- *)
(** ** The Modbus transport (pymodbus client), taken as a parameter *)

(** What a pymodbus read hands back when it is not [None]: [isError()] and
    [registers]. *)
Record ModbusResponse : Type := {
  isError : bool;
  registers : list Z
}.

(** The two read methods of a connected client, with arguments [address],
    [count] and [device_id].  A call may change the client ([St] is whatever
    the client and the device behind it remember) and reports its outcome by
    value: [None], an error response, or a response carrying words. *)
Record ModbusUdpClient (St : Type) : Type := {
  read_input_registers : Z -> Z -> Z -> St -> option ModbusResponse * St;
  read_holding_registers : Z -> Z -> Z -> St -> option ModbusResponse * St
}.

Arguments read_input_registers {St} _ _ _ _ _.
Arguments read_holding_registers {St} _ _ _ _ _.

(* ------------------------------------------------------------------------- *)
(** ** Computations that use the client: state passing with exceptions *)

Definition M (St A : Type) : Type := St -> Res (A * St).

Definition m_ret {St A : Type} (a : A) : M St A := fun s => Ret (a, s).

Definition m_bind {St A B : Type} (m : M St A) (k : A -> M St B) : M St B :=
  fun s =>
    match m s with
    | Ret (a, s') => k a s'
    | Raise e => Raise e
    end.

(** A pure expression that may raise, evaluated inside a computation. *)
Definition m_lift {St A : Type} (r : Res A) : M St A :=
  fun s =>
    match r with
    | Ret a => Ret (a, s)
    | Raise e => Raise e
    end.

(** A method call on the client. *)
Definition m_call {St A : Type} (f : St -> A * St) : M St A :=
  fun s => Ret (f s).

Declare Scope m_scope.
Delimit Scope m_scope with M.
Notation "'let!' x := m 'in' k" :=
  (m_bind m (fun x => k))
  (at level 10, x name, m at level 100, k at level 200)
  : m_scope.
Local Open Scope m_scope.

(* ------------------------------------------------------------------------- *)
(** ** Modbus register reading helpers *)

(** The test [rr is not None and not rr.isError()], giving [rr.registers]
    when it passes. *)
Definition succeeded (rr : option ModbusResponse) : option (list Z) :=
  match rr with
  | Some r => if negb (isError r) then Some (registers r) else None
  | None => None
  end.

(** [read_input_or_holding(client, address, count)]: input registers
    (function 4) first, holding registers (function 3) as the fallback. *)
Definition read_input_or_holding {St : Type} (client : ModbusUdpClient St)
    (address count : Z) : M St (option (list Z)) :=
  let! rr := m_call (read_input_registers client address count DEVICE_ID) in
  match succeeded rr with
  | Some regs => m_ret (Some regs)
  | None =>
      let! rr := m_call (read_holding_registers client address count DEVICE_ID) in
      match succeeded rr with
      | Some regs => m_ret (Some regs)
      | None => m_ret None
      end
  end.

(** [read_int16_scaled(client, address, scale, signed)]. *)
Definition read_int16_scaled {St : Type} (client : ModbusUdpClient St)
    (address : Z) (scale : float) (signed : bool) : M St (option float) :=
  let! regs := read_input_or_holding client address 1 in
  match regs with
  | None => m_ret None
  | Some regs =>
      let! raw := m_lift (decode_int16 regs signed) in
      m_ret (Some (int_mul_float raw scale))
  end.

(** [read_int32_scaled(client, address, scale, signed)]. *)
Definition read_int32_scaled {St : Type} (client : ModbusUdpClient St)
    (address : Z) (scale : float) (signed : bool) : M St (option float) :=
  let! regs := read_input_or_holding client address 2 in
  match regs with
  | None => m_ret None
  | Some regs =>
      let! raw := m_lift (decode_int32 regs signed) in
      m_ret (Some (int_mul_float raw scale))
  end.

(* ------------------------------------------------------------------------- *)
(** ** Core data acquisition: read_all() + power factor computation *)

(** The dictionary [data : Dict[str, Optional[float]]]. *)
Abbreviation Snapshot := (gmap string (option float)).

(** [data[key]]: a missing key raises [KeyError]. *)
Definition py_getitem (data : Snapshot) (key : string) : Res (option float) :=
  match data !! key with
  | Some v => Ret v
  | None => Raise (KeyError key)
  end.

(** [data.get(key)]: a missing key gives [None]. *)
Definition py_get (data : Snapshot) (key : string) : option float :=
  match data !! key with
  | Some v => v
  | None => None
  end.

(** The nested function [_pf_for_phase(P, U, I)]. *)
Definition _pf_for_phase (P U I : option float) : option float :=
  match P, U, I with
  | Some p, Some u, Some i =>
      let denom := (u * i)%float in
      if (PrimFloat.abs denom <? 1e-6)%float then None
      else
        let pf := (p / denom)%float in
        let pf := if (1.0 <? pf)%float then 1.0%float else pf in
        let pf := if (pf <? -1.0)%float then (-1.0)%float else pf in
        Some pf
  | _, _, _ => None
  end.

(** Lines 299-368 of [read_all]: the twenty register reads, in program order,
    each stored under its field name. *)
Definition read_registers {St : Type} (client : ModbusUdpClient St)
    : M St Snapshot :=
  let data : Snapshot := ∅ in
  let! v := read_int32_scaled client 0x3080 1.0 true in
  let data := <["P_total_W" := v]> data in
  let! v := read_int32_scaled client 0x3034 0.01 false in
  let data := <["E_total_forward_kWh" := v]> data in
  let! v := read_int32_scaled client 0x3036 0.01 false in
  let data := <["E_total_reverse_kWh" := v]> data in
  let! v := read_int16_scaled client 0x3033 0.01 true in
  let data := <["U_PEN_V" := v]> data in
  let! v := read_int16_scaled client 0x3032 0.01 false in
  let data := <["freq_Hz" := v]> data in
  (* Phase L1 *)
  let! v := read_int16_scaled client 0x3040 0.01 true in
  let data := <["U_L1_V" := v]> data in
  let! v := read_int16_scaled client 0x3041 0.01 true in
  let data := <["I_L1_A" := v]> data in
  let! v := read_int32_scaled client 0x3082 1.0 true in
  let data := <["P_L1_W" := v]> data in
  let! v := read_int32_scaled client 0x3042 0.01 false in
  let data := <["E_L1_forward_kWh" := v]> data in
  let! v := read_int32_scaled client 0x3044 0.01 false in
  let data := <["E_L1_reverse_kWh" := v]> data in
  (* Phase L2 *)
  let! v := read_int16_scaled client 0x3048 0.01 true in
  let data := <["U_L2_V" := v]> data in
  let! v := read_int16_scaled client 0x3049 0.01 true in
  let data := <["I_L2_A" := v]> data in
  let! v := read_int32_scaled client 0x3086 1.0 true in
  let data := <["P_L2_W" := v]> data in
  let! v := read_int32_scaled client 0x304A 0.01 false in
  let data := <["E_L2_forward_kWh" := v]> data in
  let! v := read_int32_scaled client 0x304C 0.01 false in
  let data := <["E_L2_reverse_kWh" := v]> data in
  (* Phase L3 *)
  let! v := read_int16_scaled client 0x3050 0.01 true in
  let data := <["U_L3_V" := v]> data in
  let! v := read_int16_scaled client 0x3051 0.01 true in
  let data := <["I_L3_A" := v]> data in
  let! v := read_int32_scaled client 0x308A 1.0 true in
  let data := <["P_L3_W" := v]> data in
  let! v := read_int32_scaled client 0x3052 0.01 false in
  let data := <["E_L3_forward_kWh" := v]> data in
  let! v := read_int32_scaled client 0x3054 0.01 false in
  let data := <["E_L3_reverse_kWh" := v]> data in
  m_ret data.

Section ReadAll.

(** Python's builtin [sum] on a non-empty list of floats.  Its rounding is the
    interpreter's business (plain left-to-right addition, or compensated
    summation in recent CPython), so it stays a parameter. *)
Variable py_sum : list float -> float.

(** The body of [for phase in ("L1", "L2", "L3")]: one pass appends
    [abs(U * I)] to [S_terms] when both readings are present. *)
Definition S_terms_step (data : Snapshot) (S_terms : list float)
    (phase : string) : list float :=
  let U := py_get data (String.append "U_" (String.append phase "_V")) in
  let I := py_get data (String.append "I_" (String.append phase "_A")) in
  match U, I with
  | Some u, Some i => S_terms ++ [PrimFloat.abs (u * i)%float]
  | _, _ => S_terms
  end.

(** Lines 370-417 of [read_all]: the four derived power-factor fields. *)
Definition derive_power_factors (data : Snapshot) : Res Snapshot :=
  (* Per-phase PF *)
  let? P := py_getitem data "P_L1_W" in
  let? U := py_getitem data "U_L1_V" in
  let? I := py_getitem data "I_L1_A" in
  let data := <["PF_L1" := _pf_for_phase P U I]> data in
  let? P := py_getitem data "P_L2_W" in
  let? U := py_getitem data "U_L2_V" in
  let? I := py_getitem data "I_L2_A" in
  let data := <["PF_L2" := _pf_for_phase P U I]> data in
  let? P := py_getitem data "P_L3_W" in
  let? U := py_getitem data "U_L3_V" in
  let? I := py_getitem data "I_L3_A" in
  let data := <["PF_L3" := _pf_for_phase P U I]> data in
  (* Total PF *)
  let? P_total := py_getitem data "P_total_W" in
  match P_total with
  | None => Ret (<["PF_total" := None]> data)
  | Some P_total =>
      let S_terms := fold_left (S_terms_step data) ["L1"; "L2"; "L3"] [] in
      let S_total :=
        match S_terms with
        | [] => 0.0%float
        | _ :: _ => py_sum S_terms
        end in
      if (S_total <=? 1e-6)%float then Ret (<["PF_total" := None]> data)
      else
        let pf_total := (P_total / S_total)%float in
        let pf_total := if (1.0 <? pf_total)%float then 1.0%float else pf_total in
        let pf_total :=
          if (pf_total <? -1.0)%float then (-1.0)%float else pf_total in
        Ret (<["PF_total" := Some pf_total]> data)
  end.

(** [read_all(client)]. *)
Definition read_all {St : Type} (client : ModbusUdpClient St) : M St Snapshot :=
  let! data := read_registers client in
  m_lift (derive_power_factors data).

End ReadAll.

(* ------------------------------------------------------------------------- *)
(** ** Main loop: what one poll cycle prints *)

Section Display.

(** [format(x, ".<digits>f")] for a float [x]: Python's own formatter. *)
Variable format_float : nat -> float -> string.

(** A replacement field [{values['key']:.<digits>f}]: the subscript raises
    [KeyError] on a missing key, and [None] does not accept a format
    specification. *)
Definition format_field (values : Snapshot) (key : string) (digits : nat)
    : Res string :=
  let? v := py_getitem values key in
  match v with
  | Some x => Ret (format_float digits x)
  | None =>
      Raise (TypeError "unsupported format string passed to NoneType.__format__")
  end.

(** Consecutive [print] statements: the lines that reached the terminal, and
    how the sequence ended (the first argument that raises ends it). *)
Fixpoint print_all (lines : list (Res string)) : list string * Res unit :=
  match lines with
  | [] => ([], Ret tt)
  | Ret line :: rest =>
      let '(out, r) := print_all rest in (line :: out, r)
  | Raise e :: _ => ([], Raise e)
  end.

(** The line for one phase (the script spells it out for L1, L2 and L3): a
    conditional expression on [values["PF_<phase>"] is not None] whose two
    branches both format U, I and P. *)
Definition phase_line (values : Snapshot) (phase : string) : Res string :=
  let PF := String.append "PF_" phase in
  let? pf := py_getitem values PF in
  let? u := format_field values (String.append "U_" (String.append phase "_V")) 1 in
  let? i := format_field values (String.append "I_" (String.append phase "_A")) 3 in
  let? p := format_field values (String.append "P_" (String.append phase "_W")) 1 in
  let head :=
    String.concat ""
      [phase; ": U="; u; " V, I="; i; " A, P="; p; " W, "] in
  match pf with
  | Some _ =>
      let? c := format_field values PF 3 in
      Ret (String.concat "" [head; "cos φ="; c])
  | None => Ret (String.append head "cos φ=NA")
  end.

(** The energy line for one phase. *)
Definition phase_energy_line (values : Snapshot) (phase : string) : Res string :=
  let? f :=
    format_field values
      (String.append "E_" (String.append phase "_forward_kWh")) 2 in
  let? r :=
    format_field values
      (String.append "E_" (String.append phase "_reverse_kWh")) 2 in
  Ret (String.concat ""
         ["    Energy "; phase; " forward:     "; f; " kWh, reverse: "; r; " kWh"]).

(** Lines 446-516 of [main]: the output of one poll cycle for the snapshot
    [values]. *)
Definition display_cycle (values : Snapshot) : list string * Res unit :=
  match py_get values "P_total_W" with
  | None =>
      print_all
        [Ret ("Read error: could not read basic registers. Check Modbus " +:+
              "settings, device ID, and that no other Modbus master is " +:+
              "using the meter.")]
  | Some _ =>
      print_all
        [ Ret "----- VM-3P75CT (Modbus/UDP live data) -----";
          (let? p := format_field values "P_total_W" 1 in
           Ret (String.concat "" ["Total active power:        "; p; " W"]));
          (let? f := format_field values "E_total_forward_kWh" 2 in
           let? r := format_field values "E_total_reverse_kWh" 2 in
           Ret (String.concat ""
                  ["Total energy forward:      "; f; " kWh, reverse: "; r; " kWh"]));
          (let? f := format_field values "freq_Hz" 2 in
           Ret (String.concat "" ["Frequency:                 "; f; " Hz"]));
          (let? u := format_field values "U_PEN_V" 1 in
           Ret (String.concat "" ["PEN voltage:               "; u; " V"]));
          phase_line values "L1";
          phase_energy_line values "L1";
          phase_line values "L2";
          phase_energy_line values "L2";
          phase_line values "L3";
          phase_energy_line values "L3";
          (let? pf := py_getitem values "PF_total" in
           match pf with
           | Some _ =>
               let? c := format_field values "PF_total" 3 in
               Ret (String.append "Total power factor:        " c)
           | None => Ret "Total power factor:        NA"
           end);
          Ret "" ]
  end.

End Display.

(* ------------------------------------------------------------------------- *)
(** ** The register table of the specification, and the builder it describes *)

(** One measurement: field name, address, word count, signedness, scale. *)
Record RegisterSpec : Type := {
  rs_name : string;
  rs_address : Z;
  rs_words : Z;
  rs_signed : bool;
  rs_scale : float
}.

(** The five entries of one phase: voltage at [base], current at [base + 1],
    active power, forward energy and reverse energy. *)
Definition phase_specs (phase : string) (base power forward reverse : Z)
    : list RegisterSpec :=
  [ {| rs_name := String.append "U_" (String.append phase "_V");
       rs_address := base; rs_words := 1; rs_signed := true;
       rs_scale := 0.01 |};
    {| rs_name := String.append "I_" (String.append phase "_A");
       rs_address := base + 1; rs_words := 1; rs_signed := true;
       rs_scale := 0.01 |};
    {| rs_name := String.append "P_" (String.append phase "_W");
       rs_address := power; rs_words := 2; rs_signed := true;
       rs_scale := 1.0 |};
    {| rs_name := String.append "E_" (String.append phase "_forward_kWh");
       rs_address := forward; rs_words := 2; rs_signed := false;
       rs_scale := 0.01 |};
    {| rs_name := String.append "E_" (String.append phase "_reverse_kWh");
       rs_address := reverse; rs_words := 2; rs_signed := false;
       rs_scale := 0.01 |} ].

(** The fixed table of the specification (section 3), keyed by the names the
    script stores the readings under. *)
Definition REGISTER_TABLE : list RegisterSpec :=
  [ {| rs_name := "P_total_W"; rs_address := 0x3080; rs_words := 2;
       rs_signed := true; rs_scale := 1.0 |};
    {| rs_name := "E_total_forward_kWh"; rs_address := 0x3034; rs_words := 2;
       rs_signed := false; rs_scale := 0.01 |};
    {| rs_name := "E_total_reverse_kWh"; rs_address := 0x3036; rs_words := 2;
       rs_signed := false; rs_scale := 0.01 |};
    {| rs_name := "U_PEN_V"; rs_address := 0x3033; rs_words := 1;
       rs_signed := true; rs_scale := 0.01 |};
    {| rs_name := "freq_Hz"; rs_address := 0x3032; rs_words := 1;
       rs_signed := false; rs_scale := 0.01 |} ]
  ++ phase_specs "L1" 0x3040 0x3082 0x3042 0x3044
  ++ phase_specs "L2" 0x3048 0x3086 0x304A 0x304C
  ++ phase_specs "L3" 0x3050 0x308A 0x3052 0x3054.

(** The four derived fields added after the reads. *)
Definition POWER_FACTOR_FIELDS : list string :=
  ["PF_L1"; "PF_L2"; "PF_L3"; "PF_total"].

(** Every key of a finished snapshot. *)
Definition SNAPSHOT_FIELDS : list string :=
  map rs_name REGISTER_TABLE ++ POWER_FACTOR_FIELDS.

(** Decode step (section 4.2): Decode16 for one word, Decode32 for two. *)
Definition decode_words (e : RegisterSpec) (regs : list Z) : Res Z :=
  if rs_words e =? 1 then decode_int16 regs (rs_signed e)
  else decode_int32 regs (rs_signed e).

(** One table entry (section 4.4): one register access, one decode, one
    scale; a failed access leaves the field absent. *)
Definition read_entry {St : Type} (client : ModbusUdpClient St)
    (e : RegisterSpec) : M St (option float) :=
  let! regs := read_input_or_holding client (rs_address e) (rs_words e) in
  match regs with
  | None => m_ret None
  | Some regs =>
      let! raw := m_lift (decode_words e regs) in
      m_ret (Some (int_mul_float raw (rs_scale e)))
  end.

(** The table-driven snapshot builder: the entries in table order, each
    stored under its name. *)
Fixpoint build_snapshot {St : Type} (client : ModbusUdpClient St)
    (table : list RegisterSpec) (data : Snapshot) : M St Snapshot :=
  match table with
  | [] => m_ret data
  | e :: table =>
      let! v := read_entry client e in
      build_snapshot client table (<[rs_name e := v]> data)
  end.

(** A table entry asks for one or two words. *)
Definition one_or_two_words (e : RegisterSpec) : Prop :=
  rs_words e = 1 \/ rs_words e = 2.

(** The transport contract of section 6: a read that reports success
    carries exactly [count] words. *)
Definition well_formed {St : Type} (client : ModbusUdpClient St) : Prop :=
  forall (address count : Z) (s s' : St) (r : ModbusResponse),
    read_input_registers client address count DEVICE_ID s = (Some r, s') \/
    read_holding_registers client address count DEVICE_ID s = (Some r, s') ->
    isError r = false ->
    Z.of_nat (length (registers r)) = count.

(** The register accesses of a table run, in order: the outcome of each
    entry's own access ([None] when both register spaces failed), with the
    client state threaded from one access to the next. *)
Inductive access_trace {St : Type} (client : ModbusUdpClient St)
    : list RegisterSpec -> St -> list (option (list Z)) -> St -> Prop :=
| access_nil (s : St) : access_trace client [] s [] s
| access_cons (e : RegisterSpec) (table : list RegisterSpec) (s s1 s2 : St)
    (acc : option (list Z)) (accs : list (option (list Z))) :
    read_input_or_holding client (rs_address e) (rs_words e) s = Ret (acc, s1) ->
    access_trace client table s1 accs s2 ->
    access_trace client (e :: table) s (acc :: accs) s2.

(** What a field holds given the outcome of its own access. *)
Definition field_of_access (e : RegisterSpec) (acc : option (list Z))
    (v : option float) : Prop :=
  match acc with
  | None => v = None
  | Some regs =>
      exists raw : Z,
        decode_words e regs = Ret raw /\
        v = Some (int_mul_float raw (rs_scale e))
  end.

(** Storing a list of (name, value) pairs in order. *)
Definition store_all (kvs : list (string * option float)) (data : Snapshot)
    : Snapshot :=
  fold_left (fun d kv => <[kv.1 := kv.2]> d) kvs data.

(** The value the last assignment to [key] left, read off the assignment
    list. *)
Fixpoint last_stored (key : string) (kvs : list (string * option float))
    : option (option float) :=
  match kvs with
  | [] => None
  | (k, v) :: kvs =>
      match last_stored key kvs with
      | Some w => Some w
      | None => if String.eqb key k then Some v else None
      end
  end.

(* ------------------------------------------------------------------------- *)
(** ** Concrete transports *)

Inductive RegisterSpace : Type := InputRegisters | HoldingRegisters.

(** A request as the device sees it: register space, address, count. *)
Definition Request : Type := RegisterSpace * Z * Z.

(** A device that answers a request by value. *)
Definition Device : Type := RegisterSpace -> Z -> Z -> option ModbusResponse.

(** A client in front of [device] that records every request it sends. *)
Definition logging_client (device : Device) : ModbusUdpClient (list Request) :=
  {| read_input_registers address count _ log :=
       (device InputRegisters address count,
        log ++ [(InputRegisters, address, count)]);
     read_holding_registers address count _ log :=
       (device HoldingRegisters address count,
        log ++ [(HoldingRegisters, address, count)]) |}.

(** A meter holding the word [mem a] at address [a]; requests for an address
    that [dead] marks in a register space get no answer there, and a request
    for no registers gets an error response. *)
Definition meter_device (mem : Z -> Z) (dead : RegisterSpace -> Z -> bool)
    : Device :=
  fun space address count =>
    if dead space address then None
    else if count <=? 0 then Some {| isError := true; registers := [] |}
    else Some {| isError := false; registers := map mem (seqZ address count) |}.

(** A register image: total power -500 W (reverse flow), total forward energy
    500000 (5000.00 kWh), frequency 5000 (50.00 Hz), 230.00 V and 4.50 A on
    each phase, 1000 W on L1. *)
Definition sample_mem (address : Z) : Z :=
  if address =? 0x3080 then 0xFFFF
  else if address =? 0x3081 then 0xFE0C
  else if address =? 0x3034 then 0x0007
  else if address =? 0x3035 then 0xA120
  else if address =? 0x3032 then 5000
  else if address =? 0x3040 then 23000
  else if address =? 0x3041 then 450
  else if address =? 0x3083 then 1000
  else if address =? 0x3048 then 23000
  else if address =? 0x3049 then 450
  else if address =? 0x3050 then 23000
  else if address =? 0x3051 then 450
  else 0.

Definition no_dead : RegisterSpace -> Z -> bool := fun _ _ => false.

(** Input registers are not served at all: every read falls back. *)
Definition input_dead : RegisterSpace -> Z -> bool :=
  fun space _ => match space with InputRegisters => true | HoldingRegisters => false end.

(** The frequency register (0x3032) answers in neither space. *)
Definition freq_dead : RegisterSpace -> Z -> bool :=
  fun _ address => address =? 0x3032.

(** The L3 voltage and current registers answer in neither space. *)
Definition l3_dead : RegisterSpace -> Z -> bool :=
  fun _ address => (address =? 0x3050) || (address =? 0x3051).

(** Plain left-to-right float addition, one admissible [sum]. *)
Definition sum_left (terms : list float) : float :=
  fold_left PrimFloat.add terms 0%float.

(* ------------------------------------------------------------------------- *)
(** ** Power-factor rules of the specification (section 4.5) *)

(** [clamped x pf]: [pf] is [x] clipped to the closed interval
    [-1.0, 1.0]: above 1.0 it is exactly 1.0, below -1.0 exactly -1.0,
    otherwise [x] itself, and it lies in the interval whenever [x] is a
    number. *)
Definition clamped (x pf : float) : Prop :=
  ((1 <? x)%float = true -> pf = 1%float) /\
  ((x <? -1)%float = true -> pf = (-1)%float) /\
  ((1 <? x)%float = false -> (x <? -1)%float = false -> pf = x) /\
  (is_nan x = false -> (-1 <=? pf)%float = true /\ (pf <=? 1)%float = true).

(** The apparent-power term of one phase: [|U * I|] when both readings are
    present, nothing otherwise. *)
Definition phase_term (U I : option float) : list float :=
  match U, I with
  | Some u, Some i => [PrimFloat.abs (u * i)%float]
  | _, _ => []
  end.

(** The apparent-power terms of a snapshot, phase by phase. *)
Definition apparent_terms (data : Snapshot) : list float :=
  phase_term (py_get data "U_L1_V") (py_get data "I_L1_A")
  ++ phase_term (py_get data "U_L2_V") (py_get data "I_L2_A")
  ++ phase_term (py_get data "U_L3_V") (py_get data "I_L3_A").

(* ------------------------------------------------------------------------- *)
(** ** What the transport reports for one read *)

(** The read reports success and carries the words [regs]. *)
Definition read_ok (rr : option ModbusResponse) (regs : list Z) : Prop :=
  exists r : ModbusResponse,
    rr = Some r /\ isError r = false /\ registers r = regs.

(** The read reports failure: no response, or an error response. *)
Definition read_failed (rr : option ModbusResponse) : Prop :=
  rr = None \/ exists r : ModbusResponse, rr = Some r /\ isError r = true.

(** The total power factor [pf] the specification prescribes for total active
    power [P_total] and apparent-power terms [terms]: absent without
    [P_total]; otherwise [S_total] is the sum of the terms (0 when there is
    none), the result is absent when [S_total <= 1e-6] and is
    [P_total / S_total] clamped to [-1.0, 1.0] when not. *)
Definition pf_total_rule (py_sum : list float -> float)
    (P_total : option float) (terms : list float) (pf : option float) : Prop :=
  match P_total with
  | None => pf = None
  | Some p =>
      let S_total :=
        match terms with
        | [] => 0%float
        | _ :: _ => py_sum terms
        end in
      ((S_total <=? 1e-6)%float = true -> pf = None) /\
      ((S_total <=? 1e-6)%float = false ->
         exists x : float, pf = Some x /\ clamped (p / S_total)%float x)
  end.

(** Every name of [fields] is a key of [data] (its value may be [None]). *)
Definition has_fields (data : Snapshot) (fields : list string) : Prop :=
  Forall (fun k => is_Some (data !! k)) fields.

(** A snapshot after the reads in which phase L3 delivered neither voltage
    nor current: 1500 W in total, 230 V on L1 and L2 with 4.5 A and 2 A. *)
Definition sample_snapshot : Snapshot :=
  store_all
    [ ("P_total_W", Some 1500%float);
      ("E_total_forward_kWh", Some 5000%float);
      ("E_total_reverse_kWh", Some 0%float);
      ("U_PEN_V", Some 0%float);
      ("freq_Hz", Some 50%float);
      ("U_L1_V", Some 230%float); ("I_L1_A", Some 4.5%float);
      ("P_L1_W", Some 1000%float);
      ("E_L1_forward_kWh", Some 0%float); ("E_L1_reverse_kWh", Some 0%float);
      ("U_L2_V", Some 230%float); ("I_L2_A", Some 2%float);
      ("P_L2_W", Some 500%float);
      ("E_L2_forward_kWh", Some 0%float); ("E_L2_reverse_kWh", Some 0%float);
      ("U_L3_V", None); ("I_L3_A", None);
      ("P_L3_W", Some 0%float);
      ("E_L3_forward_kWh", Some 0%float); ("E_L3_reverse_kWh", Some 0%float) ]
    ∅.


(* ------------------------------------------------------------------------- *)
(** ** Register images of integers *)

(** The two words, high word first, that carry the 32-bit pattern of [v]
    (two's complement for a negative [v]). *)
Definition words_of_int32 (v : Z) : list Z :=
  [(v mod 2 ^ 32) / 65536; (v mod 2 ^ 32) mod 65536].

(** The word that carries the 16-bit pattern of [v]. *)
Definition word_of_int16 (v : Z) : list Z := [v mod 65536].

(** A device that breaks the transport contract: it answers every request
    with a success response carrying a single word. *)
Definition short_device : Device :=
  fun _ _ _ => Some {| isError := false; registers := [0] |}.

(** The access outcome [acc] carries as many words as the entry [e] asks
    for (nothing to check for a failed access). *)
Definition access_fits (e : RegisterSpec) (acc : option (list Z)) : Prop :=
  forall regs : list Z, acc = Some regs -> Z.of_nat (length regs) = rs_words e.

(* ------------------------------------------------------------------------- *)
(** ** Snapshots for the display step *)

(** A finished snapshot in which phase L3 has no voltage, current or power
    factor. *)
Definition sample_partial_snapshot : Snapshot :=
  store_all
    [ ("PF_L1", Some 0.96618357487922701%float); ("PF_L2", Some 1%float);
      ("PF_L3", None); ("PF_total", Some 1%float) ]
    sample_snapshot.

(** A finished snapshot with every reading present; the L3 and total power
    factors are absent. *)
Definition sample_complete_snapshot : Snapshot :=
  store_all
    [ ("U_L3_V", Some 230%float); ("I_L3_A", Some 0%float);
      ("PF_L1", Some 0.96618357487922701%float); ("PF_L2", Some 1%float);
      ("PF_L3", None); ("PF_total", None) ]
    sample_snapshot.

(** How a [print] argument can end when every key it consults exists: with
    a line, or with the [TypeError] of formatting [None]. *)
Definition line_or_type_error (r : Res string) : Prop :=
  (exists line : string, r = Ret line) \/
  r = Raise (TypeError "unsupported format string passed to NoneType.__format__").

(** Every register reading of the table is present in [values]. *)
Definition all_readings_present (values : Snapshot) : Prop :=
  forall k : string, k ∈ map rs_name REGISTER_TABLE ->
    exists x : float, values !! k = Some (Some x).

(* ------------------------------------------------------------------------- *)
(** ** Main loop *)

(** The connection side of the pymodbus client: [connect()] reports whether
    the socket could be opened, [close()] releases it. *)
Record Connection (St : Type) : Type := {
  connect : St -> bool * St;
  close : St -> St
}.

Arguments connect {St} _ _.
Arguments close {St} _ _.

(** What [main] does that can be observed from outside. *)
Inductive Event : Type :=
| Printed (line : string)
| Slept (seconds : float)
| Closed.

(** How far [main] got: still inside [while True], returned, or left by an
    exception. *)
Inductive MainEnd : Type :=
| StillRunning
| Returned
| Propagated (e : PyExc).

Section Main.

Variable py_sum : list float -> float.
Variable format_float : nat -> float -> string.
Context {St : Type} (client : ModbusUdpClient St) (connection : Connection St).

(** The first [passes] passes of [while True] (lines 442-519): poll,
    display, sleep.  The loop has no exit of its own; an exception raised by
    the poll or by the display leaves it. *)
Fixpoint poll_loop (passes : nat) (s : St) : list Event * MainEnd :=
  match passes with
  | O => ([], StillRunning)
  | S passes =>
      match read_all py_sum client s with
      | Raise e => ([], Propagated e)
      | Ret (values, s) =>
          let '(out, r) := display_cycle format_float values in
          match r with
          | Raise e => (map Printed out, Propagated e)
          | Ret _ =>
              let '(events, ending) := poll_loop passes s in
              (map Printed out ++ Slept 1.0 :: events, ending)
          end
      end
  end.

(** [main()], observed for [passes] passes of the loop: without a connection
    it prints two lines and returns; otherwise it loops, and the [finally]
    clause closes the client when the loop is left. *)
Definition main (passes : nat) (s : St) : list Event * MainEnd :=
  let '(connected, s) := connect connection s in
  if negb connected then
    ([ Printed "Could not connect to VM-3P75CT at 192.168.0.155:502";
       Printed "Check IP address, cabling, and that the meter is powered." ],
     Returned)
  else
    let '(events, ending) := poll_loop passes s in
    match ending with
    | StillRunning => (events, StillRunning)
    | _ => (events ++ [Closed], ending)
    end.

End Main.

(** Every read of one or more input registers is answered with a success
    response. *)
Definition always_serves {St : Type} (client : ModbusUdpClient St) : Prop :=
  forall (address count : Z) (s : St),
    0 < count ->
    exists (r : ModbusResponse) (s' : St),
      read_input_registers client address count DEVICE_ID s = (Some r, s') /\
      isError r = false.

(** The line printed when total active power could not be read. *)
Definition READ_ERROR_LINE : string :=
  "Read error: could not read basic registers. Check Modbus " +:+
  "settings, device ID, and that no other Modbus master is " +:+
  "using the meter.".

(** A connection that opens (or not) and leaves the request log alone. *)
Definition plain_connection (opens : bool) : Connection (list Request) :=
  {| connect log := (opens, log); close log := log |}.

(** The total active power registers (0x3080) answer in neither space. *)
Definition total_dead : RegisterSpace -> Z -> bool :=
  fun _ address => address =? 0x3080.

(* ------------------------------------------------------------------------- *)
(** ** Scaling, in the terms of the IEEE 754 specification *)



(* ------------------------------------------------------------------------- *)
(** ** Two's complement: bit-level facts *)

Section TwosComplement.

Lemma land_single_bit (v k : Z) :
  0 <= k -> Z.land v (Z.shiftl 1 k) = if Z.testbit v k then 2 ^ k else 0.
Proof.
  intros Hk. apply Z.bits_inj'. intros n Hn.
  rewrite Z.land_spec, Z.shiftl_spec by assumption.
  destruct (Z.eq_dec n k) as [->|Hne].
  - rewrite Z.sub_diag. change (Z.testbit 1 0) with true.
    rewrite andb_true_r. destruct (Z.testbit v k).
    + symmetry. apply Z.pow2_bits_true. assumption.
    + symmetry. apply Z.bits_0.
  - assert (Hbit : Z.testbit 1 (n - k) = false).
    { destruct (Z.lt_ge_cases (n - k) 0) as [Hneg|Hpos].
      - apply Z.testbit_neg_r. assumption.
      - change 1 with (2 ^ 0). apply Z.pow2_bits_false. lia. }
    rewrite Hbit, andb_false_r. destruct (Z.testbit v k).
    + symmetry. apply Z.pow2_bits_false. lia.
    + symmetry. apply Z.bits_0.
Qed.

Lemma twos_complement_pos (value bits : Z) :
  0 < bits ->
  _twos_complement value bits =
    Ret (if Z.testbit value (bits - 1) then value - 2 ^ bits else value).
Proof.
  intros Hb. unfold _twos_complement, py_lshift.
  destruct (Z.ltb_spec (bits - 1) 0) as [?|_]; [lia|]. cbn [res_bind].
  rewrite land_single_bit by lia.
  destruct (Z.testbit value (bits - 1)).
  - assert (0 < 2 ^ (bits - 1)) by (apply Z.pow_pos_nonneg; lia).
    destruct (Z.eqb_spec (2 ^ (bits - 1)) 0) as [?|_]; [lia|]. cbn [negb].
    destruct (Z.ltb_spec bits 0) as [?|_]; [lia|]. cbn [res_bind].
    rewrite Z.shiftl_1_l. reflexivity.
  - reflexivity.
Qed.

Lemma twos_complement_nonpos (value bits : Z) :
  bits <= 0 -> _twos_complement value bits = Raise (ValueError "negative shift count").
Proof.
  intros Hb. unfold _twos_complement, py_lshift.
  destruct (Z.ltb_spec (bits - 1) 0) as [_|?]; [reflexivity|lia].
Qed.

(** The sign bit of an in-range unsigned value is set exactly from the
    midpoint upward. *)
Lemma sign_bit_threshold (v bits : Z) :
  0 < bits -> 0 <= v < 2 ^ bits ->
  Z.testbit v (bits - 1) = (2 ^ (bits - 1) <=? v).
Proof.
  intros Hb [Hlo Hhi].
  assert (Hp : 0 < 2 ^ (bits - 1)) by (apply Z.pow_pos_nonneg; lia).
  assert (Hs : 2 ^ bits = 2 * 2 ^ (bits - 1)).
  { rewrite <- Z.pow_succ_r by lia. f_equal. lia. }
  rewrite Z.testbit_eqb by lia.
  destruct (Z.leb_spec (2 ^ (bits - 1)) v) as [Hge|Hlt].
  - assert (Hq : v / 2 ^ (bits - 1) = 1).
    { symmetry. apply (Z.div_unique_pos v _ 1 (v - 2 ^ (bits - 1))); lia. }
    rewrite Hq. reflexivity.
  - rewrite Z.div_small by lia. reflexivity.
Qed.

End TwosComplement.

(* ------------------------------------------------------------------------- *)
(** ** Register word decoders *)

Section Decoders.

Lemma land_word16 (w : Z) : Z.land w 0xFFFF = w mod 65536.
Proof. change 0xFFFF with (Z.ones 16). rewrite Z.land_ones by lia. reflexivity. Qed.


Lemma land_word16_id (w : Z) : 0 <= w <= 65535 -> Z.land w 0xFFFF = w.
Proof. intros H. rewrite land_word16. apply Z.mod_small. lia. Qed.

(** Two in-range words have disjoint bits once the high one is shifted, so
    the bitwise "or" is the positional sum. *)
Lemma combine_words (hi lo : Z) :
  0 <= hi <= 65535 -> 0 <= lo <= 65535 ->
  Z.lor (Z.shiftl hi 16) lo = hi * 65536 + lo.
Proof.
  intros Hhi Hlo.
  rewrite Z.shiftl_mul_pow2 by lia.
  assert (Hdisj : Z.land (hi * 2 ^ 16) lo = 0).
  { apply Z.bits_inj'. intros n Hn. rewrite Z.land_spec, Z.bits_0.
    destruct (Z.lt_ge_cases n 16) as [Hlt|Hge].
    - rewrite Z.mul_pow2_bits_low by lia. reflexivity.
    - assert (Hb : Z.testbit lo n = false).
      { destruct (Z.eq_dec lo 0) as [->|Hne]; [apply Z.bits_0|].
        apply Z.bits_above_log2; [lia|].
        apply Z.lt_le_trans with 16; [|lia].
        apply Z.log2_lt_pow2; [lia|]. change (2 ^ 16) with 65536. lia. }
      rewrite Hb. apply andb_false_r. }
  rewrite <- (Z.lxor_lor _ _ Hdisj), <- (Z.add_nocarry_lxor _ _ Hdisj).
  reflexivity.
Qed.

Lemma length_one (registers : list Z) :
  length registers = 1%nat -> exists w, registers = [w].
Proof. destruct registers as [|w [|? ?]]; try discriminate. intros _. eauto. Qed.

Lemma length_two (registers : list Z) :
  length registers = 2%nat -> exists hi lo, registers = [hi; lo].
Proof.
  destruct registers as [|hi [|lo [|? ?]]]; try discriminate. intros _. eauto.
Qed.



End Decoders.

(** C1.  On a list holding exactly one 16-bit word, [decode_int16] returns
    the word itself when [signed] is false, and when [signed] is true the word
    minus 65536 if the word is at least 32768 and the word unchanged
    otherwise; on a list of any other length it raises [ValueError] and
    returns nothing. *)
Theorem decode_int16_spec (registers : list Z) (signed : bool) :
  (forall w : Z, registers = [w] -> 0 <= w <= 65535 ->
     decode_int16 registers false = Ret w /\
     decode_int16 registers true = Ret (if 32768 <=? w then w - 65536 else w)) /\
  (length registers <> 1%nat ->
     decode_int16 registers signed =
       Raise (ValueError "decode_int16 expects exactly 1 register")).
Proof.
  split.
  - intros w -> Hw. unfold decode_int16. cbn.
    rewrite land_word16_id by assumption. split; [reflexivity|].
    rewrite twos_complement_pos by lia.
    rewrite sign_bit_threshold by (change (2 ^ 16) with 65536; lia).
    reflexivity.
  - intros Hlen. unfold decode_int16.
    destruct (Nat.eqb_spec (length registers) 1); [contradiction|reflexivity].
Qed.

Lemma decode_int16_spec_witness :
  (decode_int16 [40000] false = Ret 40000 /\
   decode_int16 [40000] true = Ret (-25536)) /\
  decode_int16 [1; 2] true =
    Raise (ValueError "decode_int16 expects exactly 1 register").
Proof.
  split.
  - apply (proj1 (decode_int16_spec [40000] true) 40000); [reflexivity|lia].
  - apply (proj2 (decode_int16_spec [1; 2] true)). cbn. lia.
Defined.

(** C2.  On a list holding exactly two 16-bit words [hi; lo],
    [decode_int32] returns [(hi << 16) | lo] (the unsigned 32-bit value
    [hi * 65536 + lo]) when [signed] is false, and when [signed] is true that
    value minus [2^32] if its bit 31 is set (equivalently, if it is at least
    [2^31]) and unchanged otherwise; on a list of any other length it raises
    [ValueError]. *)
Theorem decode_int32_spec (registers : list Z) (signed : bool) :
  (forall hi lo : Z, registers = [hi; lo] ->
     0 <= hi <= 65535 -> 0 <= lo <= 65535 ->
     let raw := Z.lor (Z.shiftl hi 16) lo in
     raw = hi * 65536 + lo /\
     Z.testbit raw 31 = (2147483648 <=? raw) /\
     decode_int32 registers false = Ret raw /\
     decode_int32 registers true =
       Ret (if Z.testbit raw 31 then raw - 2 ^ 32 else raw)) /\
  (length registers <> 2%nat ->
     decode_int32 registers signed =
       Raise (ValueError "decode_int32 expects exactly 2 registers")).
Proof.
  split.
  - intros hi lo -> Hhi Hlo raw.
    assert (Hraw : raw = hi * 65536 + lo) by (apply combine_words; assumption).
    split; [assumption|]. split.
    + apply (sign_bit_threshold raw 32); [lia|].
      change (2 ^ 32) with 4294967296. lia.
    + unfold decode_int32. cbn.
      rewrite !land_word16_id by assumption. fold raw. split; [reflexivity|].
      apply twos_complement_pos. lia.
  - intros Hlen. unfold decode_int32.
    destruct (Nat.eqb_spec (length registers) 2); [contradiction|reflexivity].
Qed.

Lemma decode_int32_spec_witness :
  (Z.lor (Z.shiftl 0xFFFF 16) 0xFE0C = 0xFFFF * 65536 + 0xFE0C /\
   Z.testbit (Z.lor (Z.shiftl 0xFFFF 16) 0xFE0C) 31 =
     (2147483648 <=? Z.lor (Z.shiftl 0xFFFF 16) 0xFE0C) /\
   decode_int32 [0xFFFF; 0xFE0C] false = Ret 4294966796 /\
   decode_int32 [0xFFFF; 0xFE0C] true = Ret (-500)) /\
  decode_int32 [7] false =
    Raise (ValueError "decode_int32 expects exactly 2 registers").
Proof.
  split.
  - apply (proj1 (decode_int32_spec [0xFFFF; 0xFE0C] true) 0xFFFF 0xFE0C);
      [reflexivity|lia|lia].
  - apply (proj2 (decode_int32_spec [7] false)). cbn. lia.
Defined.

(** C8 (amended).  [_twos_complement] does not check that the width is 16 or
    32: it raises exactly when the width is at most 0 (the shift count
    [bits - 1] is then negative), and for every positive width, 16 and 32
    included, it is a total function of its two arguments that returns the
    input unchanged when bit [bits - 1] is clear and the input minus
    [2^bits] when that bit is set. *)
Theorem twos_complement_contract (value bits : Z) :
  (raises (_twos_complement value bits) <-> bits <= 0) /\
  (0 < bits ->
     _twos_complement value bits =
       Ret (if Z.testbit value (bits - 1) then value - 2 ^ bits else value)).
Proof.
  split; [split|].
  - intros [e He]. destruct (Z.lt_ge_cases 0 bits) as [Hpos|Hle]; [|lia].
    rewrite twos_complement_pos in He by assumption. discriminate.
  - intros Hle. eexists. apply twos_complement_nonpos. assumption.
  - apply twos_complement_pos.
Qed.

Lemma twos_complement_contract_witness :
  _twos_complement 0xFE0C 16 = Ret (-500) /\
  _twos_complement 0x7FFFFFFF 32 = Ret 2147483647.
Proof.
  split.
  - apply (proj2 (twos_complement_contract 0xFE0C 16)). lia.
  - apply (proj2 (twos_complement_contract 0x7FFFFFFF 32)). lia.
Defined.

(** C8 as stated fails: with width 8, which is neither 16 nor 32, the
    function raises nothing and returns the 8-bit signed reading. *)
Lemma twos_complement_width8_returns :
  _twos_complement 200 8 = Ret (-56) /\
  ~ (raises (_twos_complement 200 8) <-> (8 <> 16 /\ 8 <> 32)).
Proof.
  split; [reflexivity|].
  intros [_ Hfail]. destruct Hfail as [e He]; [split; lia|]. discriminate.
Qed.

(* ------------------------------------------------------------------------- *)
(** ** Order facts on binary64 numbers *)

Section FloatOrder.

Lemma SFcompare_antisym (x y : spec_float) :
  SFcompare y x = option_map CompOpp (SFcompare x y).
Proof.
  destruct x as [sx|sx| |sx mx ex], y as [sy|sy| |sy my ey]; cbn;
    try reflexivity;
    try (destruct sx; reflexivity); try (destruct sy; reflexivity);
    try (destruct sx, sy; reflexivity).
  assert (Hm : Pos.compare_cont Eq mx my = CompOpp (Pos.compare_cont Eq my mx))
    by (rewrite Pos.compare_cont_antisym; reflexivity).
  rewrite (Z.compare_antisym ey ex), Hm.
  destruct sx, sy; cbn; try reflexivity.
  all: destruct (ey ?= ex)%Z; cbn; try reflexivity.
  all: destruct (Pos.compare_cont Eq my mx); reflexivity.
Qed.

Lemma SFcompare_refl_nan (x : spec_float) :
  SFcompare x x = match x with S754_nan => None | _ => Some Eq end.
Proof.
  destruct x as [s|s| |s m e]; cbn; try reflexivity.
  - destruct s; reflexivity.
  - rewrite Z.compare_refl, Pos.compare_cont_refl. destruct s; reflexivity.
Qed.

(** Two numbers (neither a NaN) always compare. *)
Lemma is_nan_false_compare (x y : float) :
  is_nan x = false -> is_nan y = false ->
  exists c, SFcompare (Prim2SF x) (Prim2SF y) = Some c.
Proof.
  unfold is_nan. rewrite !FloatAxioms.eqb_spec. unfold SFeqb.
  rewrite !SFcompare_refl_nan.
  destruct (Prim2SF x), (Prim2SF y); cbn; try discriminate; eauto.
Qed.

Lemma float_not_lt_le (x y : float) :
  is_nan x = false -> is_nan y = false ->
  (y <? x)%float = false -> (x <=? y)%float = true.
Proof.
  intros Hx Hy. rewrite FloatAxioms.ltb_spec, FloatAxioms.leb_spec.
  unfold SFltb, SFleb.
  destruct (is_nan_false_compare x y Hx Hy) as [c Hc].
  rewrite (SFcompare_antisym (Prim2SF x) (Prim2SF y)), Hc.
  destruct c; cbn; congruence.
Qed.

(** Nothing is both above 1.0 and below -1.0. *)
Lemma float_gt_one_not_lt_minus_one (x : float) :
  (1 <? x)%float = true -> (x <? -1)%float = false.
Proof.
  rewrite !FloatAxioms.ltb_spec. unfold SFltb.
  assert (H1 : Prim2SF 1 = S754_finite false 4503599627370496 (-52))
    by (vm_compute; reflexivity).
  assert (H2 : Prim2SF (-1) = S754_finite true 4503599627370496 (-52))
    by (vm_compute; reflexivity).
  rewrite H1, H2.
  destruct (Prim2SF x) as [s|s| |s m e]; try destruct s;
    cbv beta iota delta [SFcompare]; intros H;
    first [reflexivity | discriminate H].
Qed.

(** The two clipping assignments of the script implement [clamped]. *)
Lemma clip_steps_clamped (x : float) :
  clamped x
    (let pf := if (1.0 <? x)%float then 1.0%float else x in
     if (pf <? -1.0)%float then (-1.0)%float else pf).
Proof.
  unfold clamped. cbv zeta.
  destruct (1 <? x)%float eqn:Hgt.
  - change (1 <? -1)%float with false. cbv iota.
    pose proof (float_gt_one_not_lt_minus_one x Hgt) as Hlt.
    repeat split; try reflexivity; congruence.
  - destruct (x <? -1)%float eqn:Hlt.
    + repeat split; try reflexivity; congruence.
    + repeat split; try reflexivity; try congruence.
      * apply float_not_lt_le; [reflexivity|assumption|assumption].
      * apply float_not_lt_le; [assumption|reflexivity|assumption].
Qed.

End FloatOrder.

(** C3.  The per-phase power factor is absent whenever P, U or I is absent
    or [|U * I| < 1e-6]; otherwise it is present and equals [P / (U * I)]
    clamped to [-1.0, 1.0]: exactly 1.0 for a ratio above 1.0, exactly -1.0
    for a ratio below -1.0, the ratio itself in between. *)
Theorem pf_for_phase_spec (P U I : option float) :
  (P = None \/ U = None \/ I = None -> _pf_for_phase P U I = None) /\
  (forall p u i : float, P = Some p -> U = Some u -> I = Some i ->
     ((PrimFloat.abs (u * i) <? 1e-6)%float = true ->
        _pf_for_phase P U I = None) /\
     ((PrimFloat.abs (u * i) <? 1e-6)%float = false ->
        exists pf : float,
          _pf_for_phase P U I = Some pf /\ clamped (p / (u * i))%float pf)).
Proof.
  split.
  - intros [->|[->| ->]]; [reflexivity| |].
    + destruct P; reflexivity.
    + destruct P, U; reflexivity.
  - intros p u i -> -> ->. unfold _pf_for_phase. split; intros Hd; rewrite Hd.
    + reflexivity.
    + eexists. split; [reflexivity|]. apply clip_steps_clamped.
Qed.

Lemma pf_for_phase_spec_witness :
  _pf_for_phase (Some 1000%float) None (Some 4.5%float) = None /\
  _pf_for_phase (Some 1000%float) (Some 0%float) (Some 5%float) = None /\
  exists pf : float,
    _pf_for_phase (Some 1.2%float) (Some 1%float) (Some 1%float) = Some pf /\
    clamped (1.2 / (1 * 1))%float pf.
Proof.
  split; [|split].
  - apply (proj1 (pf_for_phase_spec (Some 1000%float) None (Some 4.5%float))).
    right. left. reflexivity.
  - apply (proj2 (pf_for_phase_spec (Some 1000%float) (Some 0%float)
                    (Some 5%float)) 1000%float 0%float 5%float
             eq_refl eq_refl eq_refl).
    reflexivity.
  - apply (proj2 (pf_for_phase_spec (Some 1.2%float) (Some 1%float)
                    (Some 1%float)) 1.2%float 1%float 1%float
             eq_refl eq_refl eq_refl).
    reflexivity.
Defined.

(* ------------------------------------------------------------------------- *)
(** ** Register access with fallback *)

Section RegisterAccess.

Context {St : Type} (client : ModbusUdpClient St).

Lemma succeeded_ok (rr : option ModbusResponse) (regs : list Z) :
  read_ok rr regs -> succeeded rr = Some regs.
Proof. intros (r & -> & Herr & <-). cbn. rewrite Herr. reflexivity. Qed.

Lemma succeeded_failed (rr : option ModbusResponse) :
  read_failed rr -> succeeded rr = None.
Proof. intros [->|(r & -> & Herr)]; cbn; [|rewrite Herr]; reflexivity. Qed.

Lemma succeeded_inv (rr : option ModbusResponse) (regs : list Z) :
  succeeded rr = Some regs -> read_ok rr regs.
Proof.
  destruct rr as [r|]; cbn; [|discriminate].
  destruct (isError r) eqn:Herr; cbn; [discriminate|].
  intros [= <-]. exists r. auto.
Qed.

(** The access always returns: some words or [None], never an exception. *)
Lemma read_input_or_holding_returns (address count : Z) (s : St) :
  exists (acc : option (list Z)) (s' : St),
    read_input_or_holding client address count s = Ret (acc, s').
Proof.
  unfold read_input_or_holding, m_bind, m_call, m_ret.
  destruct (read_input_registers client address count DEVICE_ID s) as [rr1 s1].
  destruct (succeeded rr1); [eauto|].
  destruct (read_holding_registers client address count DEVICE_ID s1)
    as [rr2 s2].
  destruct (succeeded rr2); eauto.
Qed.

(** Under the transport contract the words returned are [count] many. *)
Lemma read_input_or_holding_length (address count : Z) (s s' : St)
    (regs : list Z) :
  well_formed client ->
  read_input_or_holding client address count s = Ret (Some regs, s') ->
  Z.of_nat (length regs) = count.
Proof.
  intros Hwf. unfold read_input_or_holding, m_bind, m_call, m_ret.
  destruct (read_input_registers client address count DEVICE_ID s)
    as [rr1 s1] eqn:H1.
  destruct (succeeded rr1) as [regs1|] eqn:Hs1.
  - intros [= <- <-]. destruct (succeeded_inv _ _ Hs1) as (r & -> & Herr & <-).
    eapply Hwf; [left; exact H1|exact Herr].
  - destruct (read_holding_registers client address count DEVICE_ID s1)
      as [rr2 s2] eqn:H2.
    destruct (succeeded rr2) as [regs2|] eqn:Hs2; [|discriminate].
    intros [= <- <-]. destruct (succeeded_inv _ _ Hs2) as (r & -> & Herr & <-).
    eapply Hwf; [right; exact H2|exact Herr].
Qed.

End RegisterAccess.

(** C5.  The register access tries the input registers and returns their
    words when that read reports success (the holding registers are then not
    asked); when it reports failure the access tries the holding registers
    and returns the words of that read when it succeeds; when both report
    failure it returns [None].  In no case does it raise. *)
Theorem read_input_or_holding_fallback {St : Type} (client : ModbusUdpClient St)
    (address count : Z) (s s1 s2 : St) (rr1 rr2 : option ModbusResponse) :
  read_input_registers client address count DEVICE_ID s = (rr1, s1) ->
  read_holding_registers client address count DEVICE_ID s1 = (rr2, s2) ->
  (forall regs : list Z, read_ok rr1 regs ->
     read_input_or_holding client address count s = Ret (Some regs, s1)) /\
  (read_failed rr1 -> forall regs : list Z, read_ok rr2 regs ->
     read_input_or_holding client address count s = Ret (Some regs, s2)) /\
  (read_failed rr1 -> read_failed rr2 ->
     read_input_or_holding client address count s = Ret (None, s2)) /\
  ~ raises (read_input_or_holding client address count s).
Proof.
  intros H1 H2. unfold read_input_or_holding, m_bind, m_call, m_ret.
  rewrite H1. repeat split.
  - intros regs Hok. rewrite (succeeded_ok _ _ Hok). reflexivity.
  - intros Hf regs Hok.
    rewrite (succeeded_failed _ Hf), H2, (succeeded_ok _ _ Hok). reflexivity.
  - intros Hf1 Hf2.
    rewrite (succeeded_failed _ Hf1), H2, (succeeded_failed _ Hf2). reflexivity.
  - intros [e He]. destruct (succeeded rr1); [discriminate|].
    rewrite H2 in He. destruct (succeeded rr2); discriminate.
Qed.

Lemma read_input_or_holding_fallback_witness :
  read_input_or_holding (logging_client (meter_device sample_mem input_dead))
    0x3032 1 [] =
  Ret (Some [5000],
       [(InputRegisters, 0x3032, 1); (HoldingRegisters, 0x3032, 1)]).
Proof.
  apply (proj1 (proj2 (read_input_or_holding_fallback
                         (logging_client (meter_device sample_mem input_dead))
                         0x3032 1 [] _ _ _ _ eq_refl eq_refl))).
  - left. reflexivity.
  - eexists. repeat split.
Defined.

(* ------------------------------------------------------------------------- *)
(** ** Dictionaries built by successive assignments *)

Section StoreAll.

Implicit Types (kvs : list (string * option float)) (data : Snapshot).

Lemma store_all_snoc kvs data (k : string) (v : option float) :
  <[k := v]> (store_all kvs data) = store_all (kvs ++ [(k, v)]) data.
Proof. unfold store_all. rewrite fold_left_app. reflexivity. Qed.

Lemma store_all_lookup_last kvs data (key : string) :
  store_all kvs data !! key =
    match last_stored key kvs with
    | Some v => Some v
    | None => data !! key
    end.
Proof.
  revert data. induction kvs as [|[k v] kvs IH]; intros data; [reflexivity|].
  change (store_all ((k, v) :: kvs) data) with (store_all kvs (<[k := v]> data)).
  rewrite IH. cbn [last_stored].
  destruct (last_stored key kvs); [reflexivity|].
  destruct (String.eqb_spec key k) as [->|Hne].
  - apply lookup_insert_eq.
  - apply lookup_insert_ne. congruence.
Qed.

Lemma store_all_lookup_notin kvs data (key : string) :
  key ∉ kvs.*1 -> store_all kvs data !! key = data !! key.
Proof.
  revert data. induction kvs as [|[k v] kvs IH]; intros data Hnot; [reflexivity|].
  change (store_all ((k, v) :: kvs) data) with (store_all kvs (<[k := v]> data)).
  cbn in Hnot. apply not_elem_of_cons in Hnot as [Hne Hnot].
  rewrite IH by assumption. apply lookup_insert_ne. congruence.
Qed.

(** With distinct names every assignment is still readable at the end. *)
Lemma store_all_lookup_zip (names : list string) (vs : list (option float)) data :
  length names = length vs -> NoDup names ->
  Forall2 (fun k v => store_all (zip names vs) data !! k = Some v) names vs.
Proof.
  revert vs data. induction names as [|k names IH]; intros [|v vs] data Hlen Hnd;
    try discriminate; [constructor|].
  apply NoDup_cons in Hnd as [Hk Hnd]. injection Hlen as Hlen.
  change (store_all (zip (k :: names) (v :: vs)) data)
    with (store_all (zip names vs) (<[k := v]> data)).
  constructor.
  - rewrite store_all_lookup_notin; [apply lookup_insert_eq|].
    rewrite fst_zip by lia. assumption.
  - apply IH; assumption.
Qed.

#[local] Set Warnings "-clear-no-such-hyp".

Lemma store_all_dom kvs data :
  dom (store_all kvs data) = list_to_set kvs.*1 ∪ dom data.
Proof.
  revert data. induction kvs as [|[k v] kvs IH]; intros data.
  - cbn. set_solver.
  - change (store_all ((k, v) :: kvs) data)
      with (store_all kvs (<[k := v]> data)).
    rewrite IH, dom_insert_L. cbn. set_solver.
Qed.

End StoreAll.

(* ------------------------------------------------------------------------- *)
(** ** Running the table *)

Section TableRun.

Context {St : Type} (client : ModbusUdpClient St).

Lemma decode_int16_returns (regs : list Z) (signed : bool) :
  length regs = 1%nat -> exists raw : Z, decode_int16 regs signed = Ret raw.
Proof.
  intros Hlen. destruct (length_one _ Hlen) as [w ->]. unfold decode_int16. cbn.
  destruct signed; [|eauto]. rewrite twos_complement_pos by lia. eauto.
Qed.

Lemma decode_int32_returns (regs : list Z) (signed : bool) :
  length regs = 2%nat -> exists raw : Z, decode_int32 regs signed = Ret raw.
Proof.
  intros Hlen. destruct (length_two _ Hlen) as (h & l & ->).
  unfold decode_int32. cbn.
  destruct signed; [|eauto]. rewrite twos_complement_pos by lia. eauto.
Qed.

Lemma decode_words_returns (e : RegisterSpec) (regs : list Z) :
  one_or_two_words e -> Z.of_nat (length regs) = rs_words e ->
  exists raw : Z, decode_words e regs = Ret raw.
Proof.
  intros [Hw|Hw] Hlen; unfold decode_words; rewrite Hw in *; cbn.
  - apply decode_int16_returns. lia.
  - apply decode_int32_returns. lia.
Qed.

(** One entry: the field is decided by the entry's own access alone, and
    the client is left where that access left it. *)
Lemma read_entry_run (e : RegisterSpec) (s s1 : St) (acc : option (list Z)) :
  well_formed client -> one_or_two_words e ->
  read_input_or_holding client (rs_address e) (rs_words e) s = Ret (acc, s1) ->
  exists v : option float,
    read_entry client e s = Ret (v, s1) /\ field_of_access e acc v.
Proof.
  intros Hwf Hw Hacc. unfold read_entry, m_bind. rewrite Hacc.
  destruct acc as [regs|]; [|exists None; split; reflexivity].
  pose proof (read_input_or_holding_length client _ _ _ _ _ Hwf Hacc) as Hlen.
  destruct (decode_words_returns e regs Hw Hlen) as [raw Hraw].
  exists (Some (int_mul_float raw (rs_scale e))).
  unfold m_lift, m_ret. rewrite Hraw. split; [reflexivity|].
  exists raw. split; [assumption|reflexivity].
Qed.

(** The whole table: every entry is accessed once, in order, and stored;
    no entry stops the run. *)
Lemma build_snapshot_run (table : list RegisterSpec) :
  well_formed client -> Forall one_or_two_words table ->
  forall (data : Snapshot) (s : St),
  exists (accs : list (option (list Z))) (vs : list (option float)) (s' : St),
    access_trace client table s accs s' /\
    Forall3 field_of_access table accs vs /\
    build_snapshot client table data s =
      Ret (store_all (zip (map rs_name table) vs) data, s').
Proof.
  intros Hwf Hall. induction Hall as [|e table He Hall IH]; intros data s.
  - exists [], [], s. repeat split; constructor.
  - destruct (read_input_or_holding_returns client (rs_address e) (rs_words e) s)
      as (acc & s1 & Hacc).
    destruct (read_entry_run e s s1 acc Hwf He Hacc) as (v & Hrun & Hv).
    destruct (IH (<[rs_name e := v]> data) s1) as (accs & vs & s' & Ht & Hf & Hb).
    exists (acc :: accs), (v :: vs), s'. repeat split.
    + econstructor; eassumption.
    + constructor; assumption.
    + cbn [build_snapshot]. unfold m_bind at 1. rewrite Hrun. exact Hb.
Qed.

End TableRun.

Lemma register_table_words : Forall one_or_two_words REGISTER_TABLE.
Proof.
  unfold REGISTER_TABLE, phase_specs. cbn [app].
  repeat (apply Forall_cons; split;
          [first [left; reflexivity | right; reflexivity]|]).
  apply Forall_nil. exact I.
Qed.

Lemma register_table_names :
  map rs_name REGISTER_TABLE =
    [ "P_total_W"; "E_total_forward_kWh"; "E_total_reverse_kWh"; "U_PEN_V";
      "freq_Hz";
      "U_L1_V"; "I_L1_A"; "P_L1_W"; "E_L1_forward_kWh"; "E_L1_reverse_kWh";
      "U_L2_V"; "I_L2_A"; "P_L2_W"; "E_L2_forward_kWh"; "E_L2_reverse_kWh";
      "U_L3_V"; "I_L3_A"; "P_L3_W"; "E_L3_forward_kWh"; "E_L3_reverse_kWh" ].
Proof. reflexivity. Qed.

Lemma snapshot_fields_NoDup : NoDup SNAPSHOT_FIELDS.
Proof. apply (bool_decide_unpack _). vm_compute. reflexivity. Qed.

(** The script's twenty reads are the table run. *)
Lemma read_registers_table_eq {St : Type} (client : ModbusUdpClient St) (s : St) :
  read_registers client s = build_snapshot client REGISTER_TABLE ∅ s.
Proof. reflexivity. Qed.

(* ------------------------------------------------------------------------- *)
(** ** Power-factor derivation *)

Section Derivation.

Variable py_sum : list float -> float.

(** The loop over the three phases collects the terms of the phases whose
    voltage and current are both present, in phase order. *)
Lemma S_terms_loop (data : Snapshot) :
  fold_left (S_terms_step data) ["L1"; "L2"; "L3"] [] = apparent_terms data.
Proof.
  unfold apparent_terms. cbn [fold_left]. unfold S_terms_step.
  change (String.append "U_" (String.append "L1" "_V")) with "U_L1_V".
  change (String.append "I_" (String.append "L1" "_A")) with "I_L1_A".
  change (String.append "U_" (String.append "L2" "_V")) with "U_L2_V".
  change (String.append "I_" (String.append "L2" "_A")) with "I_L2_A".
  change (String.append "U_" (String.append "L3" "_V")) with "U_L3_V".
  change (String.append "I_" (String.append "L3" "_A")) with "I_L3_A".
  destruct (py_get data "U_L1_V"), (py_get data "I_L1_A"),
    (py_get data "U_L2_V"), (py_get data "I_L2_A"),
    (py_get data "U_L3_V"), (py_get data "I_L3_A"); reflexivity.
Qed.

Lemma apparent_terms_frame (data : Snapshot) (pf1 pf2 pf3 : option float) :
  apparent_terms
    (<["PF_L3" := pf3]> (<["PF_L2" := pf2]> (<["PF_L1" := pf1]> data))) =
  apparent_terms data.
Proof.
  unfold apparent_terms, py_get.
  rewrite !lookup_insert_ne by discriminate. reflexivity.
Qed.

(** The derivation on a snapshot that holds the ten readings it consults:
    it returns, and adds exactly the four power-factor fields. *)
Lemma derive_power_factors_run (data : Snapshot)
    (pt p1 u1 i1 p2 u2 i2 p3 u3 i3 : option float) :
  data !! "P_total_W" = Some pt ->
  data !! "P_L1_W" = Some p1 -> data !! "U_L1_V" = Some u1 ->
  data !! "I_L1_A" = Some i1 ->
  data !! "P_L2_W" = Some p2 -> data !! "U_L2_V" = Some u2 ->
  data !! "I_L2_A" = Some i2 ->
  data !! "P_L3_W" = Some p3 -> data !! "U_L3_V" = Some u3 ->
  data !! "I_L3_A" = Some i3 ->
  exists pft : option float,
    pf_total_rule py_sum pt (apparent_terms data) pft /\
    derive_power_factors py_sum data =
      Ret (store_all
             [ ("PF_L1", _pf_for_phase p1 u1 i1);
               ("PF_L2", _pf_for_phase p2 u2 i2);
               ("PF_L3", _pf_for_phase p3 u3 i3);
               ("PF_total", pft) ] data).
Proof.
  intros Ht H1 Hu1 Hi1 H2 Hu2 Hi2 H3 Hu3 Hi3.
  unfold derive_power_factors, py_getitem. cbv zeta.
  rewrite H1; cbn [res_bind]. rewrite Hu1; cbn [res_bind].
  rewrite Hi1; cbn [res_bind].
  rewrite !lookup_insert_ne by discriminate.
  rewrite H2; cbn [res_bind]. rewrite Hu2; cbn [res_bind].
  rewrite Hi2; cbn [res_bind].
  rewrite !lookup_insert_ne by discriminate.
  rewrite H3; cbn [res_bind]. rewrite Hu3; cbn [res_bind].
  rewrite Hi3; cbn [res_bind].
  rewrite !lookup_insert_ne by discriminate.
  rewrite Ht; cbn [res_bind].
  destruct pt as [p|]; [|exists None; split; reflexivity].
  rewrite S_terms_loop, apparent_terms_frame.
  unfold pf_total_rule.
  set (S_total := match apparent_terms data with
                  | [] => 0%float
                  | _ :: _ => py_sum (apparent_terms data)
                  end).
  destruct (S_total <=? 1e-6)%float eqn:Hs.
  - exists None. split; [|reflexivity]. split; [reflexivity|discriminate].
  - eexists. split; [|reflexivity]. split; [discriminate|].
    intros _. eexists. split; [reflexivity|]. apply clip_steps_clamped.
Qed.

End Derivation.

Lemma has_fields_lookup (data : Snapshot) (fields : list string) (k : string) :
  has_fields data fields -> bool_decide (k ∈ fields) = true ->
  exists v : option float, data !! k = Some v.
Proof.
  unfold has_fields. rewrite Forall_forall. intros H Hk.
  apply H. apply bool_decide_eq_true in Hk. exact Hk.
Qed.

Lemma has_fields_register_table (data : Snapshot) :
  has_fields data (map rs_name REGISTER_TABLE) ->
  exists pt p1 u1 i1 p2 u2 i2 p3 u3 i3 : option float,
    data !! "P_total_W" = Some pt /\
    data !! "P_L1_W" = Some p1 /\ data !! "U_L1_V" = Some u1 /\
    data !! "I_L1_A" = Some i1 /\
    data !! "P_L2_W" = Some p2 /\ data !! "U_L2_V" = Some u2 /\
    data !! "I_L2_A" = Some i2 /\
    data !! "P_L3_W" = Some p3 /\ data !! "U_L3_V" = Some u3 /\
    data !! "I_L3_A" = Some i3.
Proof.
  intros H.
  pose proof (fun k => has_fields_lookup data _ k H) as Hk.
  destruct (Hk "P_total_W" eq_refl) as [pt Ht].
  destruct (Hk "P_L1_W" eq_refl) as [p1 H1].
  destruct (Hk "U_L1_V" eq_refl) as [u1 Hu1].
  destruct (Hk "I_L1_A" eq_refl) as [i1 Hi1].
  destruct (Hk "P_L2_W" eq_refl) as [p2 H2].
  destruct (Hk "U_L2_V" eq_refl) as [u2 Hu2].
  destruct (Hk "I_L2_A" eq_refl) as [i2 Hi2].
  destruct (Hk "P_L3_W" eq_refl) as [p3 H3].
  destruct (Hk "U_L3_V" eq_refl) as [u3 Hu3].
  destruct (Hk "I_L3_A" eq_refl) as [i3 Hi3].
  exists pt, p1, u1, i1, p2, u2, i2, p3, u3, i3. repeat split; assumption.
Qed.




(* ------------------------------------------------------------------------- *)
(** ** One poll: reads, then derivation *)

Section ReadAllRun.

Variable py_sum : list float -> float.
Context {St : Type} (client : ModbusUdpClient St).

Lemma Forall3_and_Forall2 {A B C : Type} (P : A -> B -> C -> Prop)
    (Q : A -> C -> Prop) (l : list A) (k : list B) (k' : list C) :
  Forall3 P l k k' -> Forall2 Q l k' ->
  Forall3 (fun a b c => P a b c /\ Q a c) l k k'.
Proof.
  intros H3. induction H3; intros H2; inversion H2; subst; constructor; auto.
Qed.

(** A poll under the transport contract: the table is run entry by entry,
    the derivation adds four fields, and the snapshot is what these 24
    assignments leave. *)
Lemma read_all_run (s : St) :
  well_formed client ->
  exists (accs : list (option (list Z))) (vs pfs : list (option float)) (s' : St),
    access_trace client REGISTER_TABLE s accs s' /\
    Forall3 field_of_access REGISTER_TABLE accs vs /\
    length pfs = 4%nat /\
    read_all py_sum client s =
      Ret (store_all (zip SNAPSHOT_FIELDS (vs ++ pfs)) ∅, s').
Proof.
  intros Hwf.
  destruct (build_snapshot_run client REGISTER_TABLE Hwf register_table_words ∅ s)
    as (accs & vs & s' & Htrace & Hfields & Hbuild).
  pose proof (Forall3_length_lr _ _ _ _ Hfields) as Hlen.
  rewrite register_table_names in Hbuild.
  change (length REGISTER_TABLE) with 20%nat in Hlen.
  do 20 (destruct vs as [|? vs]; [discriminate Hlen|]).
  destruct vs; [clear Hlen|discriminate Hlen].
  match type of Hbuild with _ = Ret (?d, _) => set (data := d) in * end.
  edestruct (derive_power_factors_run py_sum data) as (pft & _ & Hrun);
    [unfold data; rewrite store_all_lookup_last; reflexivity ..|].
  eexists accs, _, [_; _; _; pft], s'.
  split; [exact Htrace|]. split; [exact Hfields|]. split; [reflexivity|].
  unfold read_all, m_bind, m_lift.
  rewrite read_registers_table_eq, Hbuild, Hrun. reflexivity.
Qed.

End ReadAllRun.


Lemma meter_device_well_formed (mem : Z -> Z) (dead : RegisterSpace -> Z -> bool) :
  well_formed (logging_client (meter_device mem dead)).
Proof.
  intros address count log log' r Hread Herr.
  assert (Hdev : exists space, meter_device mem dead space address count = Some r)
    by (destruct Hread as [H|H]; cbn in H; injection H as H _; eauto).
  destruct Hdev as [space Hdev]. unfold meter_device in Hdev.
  destruct (dead space address); [discriminate|].
  destruct (Z.leb_spec count 0) as [Hle|Hgt]; injection Hdev as <-.
  - discriminate Herr.
  - cbn. rewrite length_map, length_seqZ. lia.
Qed.









(** The key set of the snapshot a poll returns. *)
Lemma read_all_dom (py_sum : list float -> float) {St : Type}
    (client : ModbusUdpClient St) (s : St) :
  well_formed client ->
  exists (data : Snapshot) (s' : St),
    read_all py_sum client s = Ret (data, s') /\
    dom data = list_to_set SNAPSHOT_FIELDS.
Proof.
  intros Hwf.
  destruct (read_all_run py_sum client s Hwf)
    as (accs & vs & pfs & s' & _ & Hfields & Hpfs & Hrun).
  pose proof (Forall3_length_lr _ _ _ _ Hfields) as Hlen.
  assert (Hlen' : length SNAPSHOT_FIELDS = length (vs ++ pfs))
    by (rewrite length_app, <- Hlen, Hpfs; reflexivity).
  eexists _, s'. split; [exact Hrun|].
  rewrite store_all_dom, fst_zip by lia. set_solver.
Qed.

(** C10 (amended).  Whatever subset of the register reads fails, as long as
    the successful reads carry the words asked for, [read_all] returns a
    dictionary whose key set is exactly the same fixed 24 names: the 5
    system-wide readings, U, I, P, forward and reverse energy for each of
    L1, L2 and L3, and PF_L1, PF_L2, PF_L3, PF_total; every key is present
    and holds a float or [None]. *)
Theorem read_all_key_set (py_sum : list float -> float) {St : Type}
    (client : ModbusUdpClient St) (s : St) :
  well_formed client ->
  exists (data : Snapshot) (s' : St),
    read_all py_sum client s = Ret (data, s') /\
    dom data = list_to_set SNAPSHOT_FIELDS /\
    size (dom data) = 24%nat /\
    (forall k : string, k ∈ SNAPSHOT_FIELDS ->
       exists v : option float, data !! k = Some v) /\
    SNAPSHOT_FIELDS =
      [ "P_total_W"; "E_total_forward_kWh"; "E_total_reverse_kWh"; "U_PEN_V";
        "freq_Hz";
        "U_L1_V"; "I_L1_A"; "P_L1_W"; "E_L1_forward_kWh"; "E_L1_reverse_kWh";
        "U_L2_V"; "I_L2_A"; "P_L2_W"; "E_L2_forward_kWh"; "E_L2_reverse_kWh";
        "U_L3_V"; "I_L3_A"; "P_L3_W"; "E_L3_forward_kWh"; "E_L3_reverse_kWh";
        "PF_L1"; "PF_L2"; "PF_L3"; "PF_total" ].
Proof.
  intros Hwf.
  destruct (read_all_dom py_sum client s Hwf) as (data & s' & Hrun & Hdom).
  exists data, s'. split; [exact Hrun|]. split; [exact Hdom|].
  split; [|split; [|reflexivity]].
  - rewrite Hdom, size_list_to_set by exact snapshot_fields_NoDup. reflexivity.
  - intros k Hk. apply elem_of_dom. rewrite Hdom. apply elem_of_list_to_set.
    exact Hk.
Qed.

Lemma read_all_key_set_witness :
  exists (data : Snapshot) (log : list Request),
    read_all sum_left (logging_client (meter_device sample_mem l3_dead)) [] =
      Ret (data, log) /\
    dom data = list_to_set SNAPSHOT_FIELDS /\
    size (dom data) = 24%nat /\
    (forall k : string, k ∈ SNAPSHOT_FIELDS ->
       exists v : option float, data !! k = Some v) /\
    SNAPSHOT_FIELDS =
      [ "P_total_W"; "E_total_forward_kWh"; "E_total_reverse_kWh"; "U_PEN_V";
        "freq_Hz";
        "U_L1_V"; "I_L1_A"; "P_L1_W"; "E_L1_forward_kWh"; "E_L1_reverse_kWh";
        "U_L2_V"; "I_L2_A"; "P_L2_W"; "E_L2_forward_kWh"; "E_L2_reverse_kWh";
        "U_L3_V"; "I_L3_A"; "P_L3_W"; "E_L3_forward_kWh"; "E_L3_reverse_kWh";
        "PF_L1"; "PF_L2"; "PF_L3"; "PF_total" ].
Proof.
  apply (read_all_key_set sum_left
           (logging_client (meter_device sample_mem l3_dead)) []).
  apply meter_device_well_formed.
Defined.

(** C10 as stated fails: the key set of a returned snapshot has 24 names
    (5 + 3 * 5 + 4), not 25. *)
Lemma read_all_key_count_not_25 :
  exists (data : Snapshot) (log : list Request),
    read_all sum_left (logging_client (meter_device sample_mem no_dead)) [] =
      Ret (data, log) /\
    size (dom data) = 24%nat /\
    size (dom data) <> 25%nat.
Proof.
  destruct (read_all_dom sum_left
              (logging_client (meter_device sample_mem no_dead)) []
              (meter_device_well_formed sample_mem no_dead))
    as (data & log & Hrun & Hdom).
  exists data, log. split; [exact Hrun|].
  rewrite Hdom, size_list_to_set by exact snapshot_fields_NoDup.
  split; [reflexivity|]. cbn. discriminate.
Qed.

(* ------------------------------------------------------------------------- *)
(** ** What a poll cycle prints *)

(** C9 (the code does not keep it).  A poll in which only the frequency
    register fails yields a snapshot with total active power present and
    [freq_Hz] absent; displaying it prints three lines and then raises
    [TypeError] at the frequency line, instead of printing a
    "not available" marker. *)
Theorem display_raises_on_absent_frequency (format_float : nat -> float -> string) :
  exists (values : Snapshot) (log : list Request),
    read_all sum_left (logging_client (meter_device sample_mem freq_dead)) [] =
      Ret (values, log) /\
    py_get values "P_total_W" = Some (-500)%float /\
    values !! "freq_Hz" = Some None /\
    display_cycle format_float values =
      ([ "----- VM-3P75CT (Modbus/UDP live data) -----";
         String.concat ""
           ["Total active power:        "; format_float 1%nat (-500)%float; " W"];
         String.concat ""
           ["Total energy forward:      "; format_float 2%nat 5000%float;
            " kWh, reverse: "; format_float 2%nat 0%float; " kWh"] ],
       Raise (TypeError "unsupported format string passed to NoneType.__format__")).
Proof.
  assert (H :
    match read_all sum_left
            (logging_client (meter_device sample_mem freq_dead)) [] with
    | Ret (values, _) =>
        py_get values "P_total_W" = Some (-500)%float /\
        values !! "freq_Hz" = Some None /\
        display_cycle format_float values =
          ([ "----- VM-3P75CT (Modbus/UDP live data) -----";
             String.concat ""
               ["Total active power:        "; format_float 1%nat (-500)%float;
                " W"];
             String.concat ""
               ["Total energy forward:      "; format_float 2%nat 5000%float;
                " kWh, reverse: "; format_float 2%nat 0%float; " kWh"] ],
           Raise (TypeError
                    "unsupported format string passed to NoneType.__format__"))
    | Raise _ => False
    end) by (vm_compute; repeat split; reflexivity).
  destruct (read_all sum_left
              (logging_client (meter_device sample_mem freq_dead)) [])
    as [[values log]|e]; [|contradiction].
  exists values, log. split; [reflexivity|exact H].
Qed.

(* ------------------------------------------------------------------------- *)
(** ** Further properties of the decoders *)

(** X1.  [_twos_complement] never changes the value modulo [2^bits], and
    maps the unsigned range [0, 2^bits) onto the signed range
    [-2^(bits-1), 2^(bits-1)). *)
Theorem twos_complement_congruent (value bits : Z) :
  0 < bits ->
  exists r : Z,
    _twos_complement value bits = Ret r /\
    r mod 2 ^ bits = value mod 2 ^ bits /\
    (0 <= value < 2 ^ bits -> - 2 ^ (bits - 1) <= r < 2 ^ (bits - 1)).
Proof.
  intros Hb. rewrite twos_complement_pos by assumption.
  assert (Hp : 0 < 2 ^ (bits - 1)) by (apply Z.pow_pos_nonneg; lia).
  assert (Hs : 2 ^ bits = 2 * 2 ^ (bits - 1)).
  { rewrite <- Z.pow_succ_r by lia. f_equal. lia. }
  eexists. split; [reflexivity|]. split.
  - destruct (Z.testbit value (bits - 1)); [|reflexivity].
    replace (value - 2 ^ bits) with (value + (-1) * 2 ^ bits) by lia.
    apply Z_mod_plus_full.
  - intros Hr. rewrite sign_bit_threshold by assumption.
    destruct (Z.leb_spec (2 ^ (bits - 1)) value); lia.
Qed.

Lemma twos_complement_congruent_witness :
  exists r : Z,
    _twos_complement 0xFE0C 16 = Ret r /\
    r mod 2 ^ 16 = 0xFE0C mod 2 ^ 16 /\
    (0 <= 0xFE0C < 2 ^ 16 -> - 2 ^ (16 - 1) <= r < 2 ^ (16 - 1)).
Proof. apply (twos_complement_congruent 0xFE0C 16). lia. Defined.

(** X2.  [decode_int16] looks only at the low 16 bits of the register, also
    for an integer outside 0..65535: unsigned it returns [w mod 65536];
    signed it returns the one integer of -32768..32767 congruent to [w]
    modulo 65536. *)
Theorem decode_int16_masks (w : Z) :
  decode_int16 [w] false = Ret (w mod 65536) /\
  exists r : Z,
    decode_int16 [w] true = Ret r /\
    -32768 <= r <= 32767 /\ r mod 65536 = w mod 65536.
Proof.
  unfold decode_int16. cbn. rewrite land_word16. split; [reflexivity|].
  pose proof (Z.mod_pos_bound w 65536 ltac:(lia)) as Hr.
  destruct (twos_complement_congruent (w mod 65536) 16 ltac:(lia))
    as (r & Hrun & Hcong & Hrange).
  exists r. split; [exact Hrun|].
  change (2 ^ 16) with 65536 in *. change (2 ^ (16 - 1)) with 32768 in *.
  split; [lia|]. rewrite Hcong. apply Z.mod_mod. lia.
Qed.

(** X3.  Round trip, 16 bits: a signed integer of -32768..32767 sent as its
    16-bit two's-complement word is decoded back to itself, and an unsigned
    integer of 0..65535 likewise. *)
Theorem decode_int16_round_trip (v : Z) :
  (-32768 <= v <= 32767 -> decode_int16 (word_of_int16 v) true = Ret v) /\
  (0 <= v <= 65535 -> decode_int16 (word_of_int16 v) false = Ret v).
Proof.
  unfold word_of_int16. split; intros Hv.
  - destruct (decode_int16_masks (v mod 65536)) as (_ & r & Hrun & Hr & Hcong).
    rewrite Hrun. f_equal. rewrite Z.mod_mod in Hcong by lia.
    pose proof (Z.div_mod r 65536 ltac:(lia)).
    pose proof (Z.div_mod v 65536 ltac:(lia)).
    pose proof (Z.mod_pos_bound r 65536 ltac:(lia)).
    pose proof (Z.mod_pos_bound v 65536 ltac:(lia)). lia.
  - rewrite (proj1 (decode_int16_masks (v mod 65536))).
    rewrite Z.mod_mod by lia. rewrite Z.mod_small by lia. reflexivity.
Qed.

Lemma decode_int16_round_trip_witness :
  decode_int16 (word_of_int16 (-500)) true = Ret (-500) /\
  decode_int16 (word_of_int16 5000) false = Ret 5000.
Proof.
  split.
  - apply (proj1 (decode_int16_round_trip (-500))). lia.
  - apply (proj2 (decode_int16_round_trip 5000)). lia.
Defined.

(** X4.  [decode_int32] looks only at the low 16 bits of each register:
    unsigned it returns [(hi mod 65536) * 65536 + lo mod 65536], a value of
    0..2^32-1; signed it returns the one integer of -2^31..2^31-1 congruent
    to that value modulo 2^32. *)
Theorem decode_int32_masks (hi lo : Z) :
  let raw := (hi mod 65536) * 65536 + lo mod 65536 in
  0 <= raw <= 4294967295 /\
  decode_int32 [hi; lo] false = Ret raw /\
  exists r : Z,
    decode_int32 [hi; lo] true = Ret r /\
    -2147483648 <= r <= 2147483647 /\ r mod 2 ^ 32 = raw.
Proof.
  intros raw.
  pose proof (Z.mod_pos_bound hi 65536 ltac:(lia)) as Hh.
  pose proof (Z.mod_pos_bound lo 65536 ltac:(lia)) as Hl.
  assert (Hraw : 0 <= raw < 2 ^ 32)
    by (change (2 ^ 32) with 4294967296; unfold raw; lia).
  split; [change (2 ^ 32) with 4294967296 in Hraw; lia|].
  unfold decode_int32. cbn. rewrite !land_word16.
  rewrite combine_words by lia. fold raw. split; [reflexivity|].
  destruct (twos_complement_congruent raw 32 ltac:(lia))
    as (r & Hrun & Hcong & Hrange).
  exists r. split; [exact Hrun|]. specialize (Hrange Hraw).
  change (2 ^ (32 - 1)) with 2147483648 in Hrange.
  split; [lia|]. rewrite Hcong. apply Z.mod_small. exact Hraw.
Qed.

(** X5.  Round trip, 32 bits: a signed integer of -2^31..2^31-1 sent as the
    two words of its 32-bit two's-complement pattern, high word first, is
    decoded back to itself, and an unsigned integer of 0..2^32-1 likewise. *)
Theorem decode_int32_round_trip (v : Z) :
  (-2147483648 <= v <= 2147483647 ->
     decode_int32 (words_of_int32 v) true = Ret v) /\
  (0 <= v <= 4294967295 -> decode_int32 (words_of_int32 v) false = Ret v).
Proof.
  unfold words_of_int32. change (2 ^ 32) with 4294967296.
  pose proof (Z.mod_pos_bound v 4294967296 ltac:(lia)) as Hm.
  set (m := v mod 4294967296) in *.
  pose proof (Z.div_mod m 65536 ltac:(lia)) as Hdm.
  pose proof (Z.mod_pos_bound m 65536 ltac:(lia)) as Hlo.
  assert (Hhi : 0 <= m / 65536 <= 65535).
  { split; [apply Z.div_pos; lia|].
    apply Z.lt_succ_r. apply Z.div_lt_upper_bound; lia. }
  destruct (decode_int32_masks (m / 65536) (m mod 65536))
    as (_ & Hu & r & Hs & Hr & Hcong).
  rewrite (Z.mod_small (m / 65536)), (Z.mod_small (m mod 65536)) in * by lia.
  replace (m / 65536 * 65536 + m mod 65536) with m in * by lia.
  change (2 ^ 32) with 4294967296 in Hcong.
  split; intros Hv.
  - rewrite Hs. f_equal.
    pose proof (Z.div_mod r 4294967296 ltac:(lia)).
    pose proof (Z.div_mod v 4294967296 ltac:(lia)).
    fold m in H0. lia.
  - rewrite Hu. f_equal. unfold m. apply Z.mod_small. lia.
Qed.

Lemma decode_int32_round_trip_witness :
  decode_int32 (words_of_int32 (-500)) true = Ret (-500) /\
  decode_int32 (words_of_int32 500000) false = Ret 500000.
Proof.
  split.
  - apply (proj1 (decode_int32_round_trip (-500))). lia.
  - apply (proj2 (decode_int32_round_trip 500000)). lia.
Defined.

(** X6.  The 32-bit decoder is the 16-bit one applied word by word: the
    signed 32-bit value is 65536 times the signed reading of the high word
    plus the unsigned reading of the low word, and the unsigned value
    likewise with the unsigned reading of the high word. *)
Theorem decode_int32_by_words (hi lo : Z) :
  exists sh uh ul : Z,
    decode_int16 [hi] true = Ret sh /\
    decode_int16 [hi] false = Ret uh /\
    decode_int16 [lo] false = Ret ul /\
    decode_int32 [hi; lo] true = Ret (65536 * sh + ul) /\
    decode_int32 [hi; lo] false = Ret (65536 * uh + ul).
Proof.
  destruct (decode_int16_masks hi) as (Huh & sh & Hsh & Hshr & Hshc).
  destruct (decode_int16_masks lo) as (Hul & _).
  destruct (decode_int32_masks hi lo) as (Hraw & Hu & r & Hs & Hr & Hcong).
  exists sh, (hi mod 65536), (lo mod 65536).
  split; [exact Hsh|]. split; [exact Huh|]. split; [exact Hul|].
  split; [|rewrite Hu; f_equal; lia].
  rewrite Hs. f_equal. change (2 ^ 32) with 4294967296 in Hcong.
  pose proof (Z.mod_pos_bound hi 65536 ltac:(lia)).
  pose proof (Z.mod_pos_bound lo 65536 ltac:(lia)).
  pose proof (Z.div_mod r 4294967296 ltac:(lia)).
  pose proof (Z.div_mod sh 65536 ltac:(lia)).
  lia.
Qed.

(* ------------------------------------------------------------------------- *)
(** ** Scaled reads: the three outcomes *)

Section ScaledReads.

Context {St : Type} (client : ModbusUdpClient St).

Lemma decode_words_wrong_count (e : RegisterSpec) (regs : list Z) :
  one_or_two_words e -> Z.of_nat (length regs) <> rs_words e ->
  exists msg : string, decode_words e regs = Raise (ValueError msg).
Proof.
  intros [Hw|Hw] Hlen; unfold decode_words; rewrite Hw in *; cbn.
  - unfold decode_int16.
    destruct (Nat.eqb_spec (length regs) 1) as [Heq|_]; [lia|]. cbn. eauto.
  - unfold decode_int32.
    destruct (Nat.eqb_spec (length regs) 2) as [Heq|_]; [lia|]. cbn. eauto.
Qed.

(** One entry, whatever the transport does: no words gives [None], the
    right number of words gives the scaled value, any other number raises
    [ValueError]; the client is left where the access left it. *)
Lemma read_entry_cases (e : RegisterSpec) (s s1 : St) (acc : option (list Z)) :
  one_or_two_words e ->
  read_input_or_holding client (rs_address e) (rs_words e) s = Ret (acc, s1) ->
  (acc = None -> read_entry client e s = Ret (None, s1)) /\
  (forall regs : list Z, acc = Some regs ->
     Z.of_nat (length regs) = rs_words e ->
     exists raw : Z,
       decode_words e regs = Ret raw /\
       read_entry client e s = Ret (Some (int_mul_float raw (rs_scale e)), s1)) /\
  (forall regs : list Z, acc = Some regs ->
     Z.of_nat (length regs) <> rs_words e ->
     exists msg : string, read_entry client e s = Raise (ValueError msg)).
Proof.
  intros Hw Hacc. unfold read_entry, m_bind, m_lift, m_ret. rewrite Hacc.
  split; [|split].
  - intros ->. reflexivity.
  - intros regs -> Hlen.
    destruct (decode_words_returns e regs Hw Hlen) as [raw Hraw].
    exists raw. rewrite Hraw. split; reflexivity.
  - intros regs -> Hlen.
    destruct (decode_words_wrong_count e regs Hw Hlen) as [msg Hmsg].
    exists msg. rewrite Hmsg. reflexivity.
Qed.

End ScaledReads.

(** X7.  [read_int16_scaled] and [read_int32_scaled] have three outcomes,
    decided by the register access alone: when the access returns [None]
    they return [None]; when it returns the number of words asked for (1,
    resp. 2) they return the decoded integer times the scale; when it
    returns any other number of words the decoder's [ValueError] leaves the
    function.  In the first two the client is left as the access left it. *)
Theorem scaled_read_outcomes {St : Type} (client : ModbusUdpClient St)
    (address : Z) (scale : float) (signed : bool) (s s1 : St)
    (acc : option (list Z)) :
  (read_input_or_holding client address 1 s = Ret (acc, s1) ->
   (acc = None ->
      read_int16_scaled client address scale signed s = Ret (None, s1)) /\
   (forall regs : list Z, acc = Some regs -> length regs = 1%nat ->
      exists raw : Z,
        decode_int16 regs signed = Ret raw /\
        read_int16_scaled client address scale signed s =
          Ret (Some (int_mul_float raw scale), s1)) /\
   (forall regs : list Z, acc = Some regs -> length regs <> 1%nat ->
      read_int16_scaled client address scale signed s =
        Raise (ValueError "decode_int16 expects exactly 1 register"))) /\
  (read_input_or_holding client address 2 s = Ret (acc, s1) ->
   (acc = None ->
      read_int32_scaled client address scale signed s = Ret (None, s1)) /\
   (forall regs : list Z, acc = Some regs -> length regs = 2%nat ->
      exists raw : Z,
        decode_int32 regs signed = Ret raw /\
        read_int32_scaled client address scale signed s =
          Ret (Some (int_mul_float raw scale), s1)) /\
   (forall regs : list Z, acc = Some regs -> length regs <> 2%nat ->
      read_int32_scaled client address scale signed s =
        Raise (ValueError "decode_int32 expects exactly 2 registers"))).
Proof.
  split; intros Hacc.
  - unfold read_int16_scaled, m_bind, m_lift, m_ret. rewrite Hacc.
    split; [intros ->; reflexivity|]. split.
    + intros regs -> Hlen.
      destruct (decode_int16_returns regs signed Hlen) as [raw Hraw].
      exists raw. rewrite Hraw. split; reflexivity.
    + intros regs -> Hlen. unfold decode_int16.
      destruct (Nat.eqb_spec (length regs) 1) as [Heq|_]; [contradiction|].
      reflexivity.
  - unfold read_int32_scaled, m_bind, m_lift, m_ret. rewrite Hacc.
    split; [intros ->; reflexivity|]. split.
    + intros regs -> Hlen.
      destruct (decode_int32_returns regs signed Hlen) as [raw Hraw].
      exists raw. rewrite Hraw. split; reflexivity.
    + intros regs -> Hlen. unfold decode_int32.
      destruct (Nat.eqb_spec (length regs) 2) as [Heq|_]; [contradiction|].
      reflexivity.
Qed.

Lemma scaled_read_outcomes_witness :
  read_int16_scaled (logging_client (meter_device sample_mem no_dead))
    0x3032 0.01 false [] =
    Ret (Some 50%float, [(InputRegisters, 0x3032, 1)]) /\
  read_int32_scaled (logging_client short_device) 0x3080 1.0 true [] =
    Raise (ValueError "decode_int32 expects exactly 2 registers").
Proof.
  split.
  - destruct (proj1 (proj2 (proj1
        (scaled_read_outcomes (logging_client (meter_device sample_mem no_dead))
           0x3032 0.01 false [] _ _) eq_refl)) [5000] eq_refl eq_refl)
      as (raw & Hraw & Hrun).
    injection Hraw as <-. exact Hrun.
  - apply (proj2 (proj2 (proj2
        (scaled_read_outcomes (logging_client short_device)
           0x3080 1.0 true [] _ _) eq_refl)) [0] eq_refl).
    cbn. lia.
Defined.

(* ------------------------------------------------------------------------- *)
(** ** A success response with the wrong number of words *)

Section Malformed.

Context {St : Type} (client : ModbusUdpClient St).

(** A table run ends at the first entry whose access succeeds with a number
    of words other than the one asked for: the entries after it are never
    accessed and no dictionary is returned. *)
Lemma build_snapshot_aborts (pre post : list RegisterSpec) (e : RegisterSpec)
    (data : Snapshot) (s s1 s2 : St) (accs : list (option (list Z)))
    (regs : list Z) :
  Forall one_or_two_words pre -> one_or_two_words e ->
  access_trace client pre s accs s1 ->
  Forall2 access_fits pre accs ->
  read_input_or_holding client (rs_address e) (rs_words e) s1 =
    Ret (Some regs, s2) ->
  Z.of_nat (length regs) <> rs_words e ->
  exists msg : string,
    build_snapshot client (pre ++ e :: post) data s = Raise (ValueError msg).
Proof.
  intros Hpre He Htrace. revert data.
  induction Htrace as [s|e0 pre s s' s1 acc accs Hacc Htrace IH];
    intros data Hfits Hbad Hlen.
  - cbn [app build_snapshot]. unfold m_bind.
    destruct (proj2 (proj2 (read_entry_cases client e s s2 _ He Hbad))
                regs eq_refl Hlen) as [msg Hmsg].
    exists msg. rewrite Hmsg. reflexivity.
  - apply Forall_cons in Hpre as [He0 Hpre].
    apply Forall2_cons in Hfits as [Hfit Hfits].
    assert (Hv : exists v, read_entry client e0 s = Ret (v, s')).
    { destruct (read_entry_cases client e0 s s' acc He0 Hacc) as (Hn & Hs & _).
      destruct acc as [regs0|]; [|eauto].
      destruct (Hs regs0 eq_refl (Hfit regs0 eq_refl)) as (raw & _ & Hrun).
      eauto. }
    destruct Hv as [v Hv].
    destruct (IH Hpre (<[rs_name e0 := v]> data) Hfits Hbad Hlen) as [msg Hmsg].
    exists msg. cbn [app build_snapshot]. unfold m_bind at 1. rewrite Hv.
    exact Hmsg.
Qed.

End Malformed.

(** X8.  [read_all] has no defence against a transport that reports success
    with the wrong number of words: at the first table entry whose access
    does so (the earlier entries having been served properly or having
    failed), the poll ends with the decoder's [ValueError] and returns no
    snapshot at all. *)
Theorem read_all_aborts_on_wrong_count (py_sum : list float -> float)
    {St : Type} (client : ModbusUdpClient St)
    (pre post : list RegisterSpec) (e : RegisterSpec) (s s1 s2 : St)
    (accs : list (option (list Z))) (regs : list Z) :
  REGISTER_TABLE = pre ++ e :: post ->
  access_trace client pre s accs s1 ->
  Forall2 access_fits pre accs ->
  read_input_or_holding client (rs_address e) (rs_words e) s1 =
    Ret (Some regs, s2) ->
  Z.of_nat (length regs) <> rs_words e ->
  exists msg : string, read_all py_sum client s = Raise (ValueError msg).
Proof.
  intros Htable Htrace Hfits Hbad Hlen.
  pose proof register_table_words as Hwords. rewrite Htable in Hwords.
  apply Forall_app in Hwords as [Hpre Hrest].
  apply Forall_cons in Hrest as [He _].
  destruct (build_snapshot_aborts client pre post e ∅ s s1 s2 accs regs
              Hpre He Htrace Hfits Hbad Hlen) as [msg Hmsg].
  exists msg. unfold read_all, m_bind.
  rewrite read_registers_table_eq, Htable, Hmsg. reflexivity.
Qed.

Lemma read_all_aborts_on_wrong_count_witness :
  exists msg : string,
    read_all sum_left (logging_client short_device) [] =
      Raise (ValueError msg).
Proof.
  apply (read_all_aborts_on_wrong_count sum_left (logging_client short_device)
           [] (tl REGISTER_TABLE)
           {| rs_name := "P_total_W"; rs_address := 0x3080; rs_words := 2;
              rs_signed := true; rs_scale := 1.0 |}
           [] [] [(InputRegisters, 0x3080, 2)] [] [0]).
  - reflexivity.
  - constructor.
  - constructor.
  - reflexivity.
  - cbn. lia.
Defined.

(* ------------------------------------------------------------------------- *)
(** ** The divisions of the power-factor step *)

Section Divisors.

Lemma float_zero_below_epsilon (x : float) :
  (x =? 0)%float = true ->
  (PrimFloat.abs x <? 1e-6)%float = true /\ (x <=? 1e-6)%float = true.
Proof.
  rewrite FloatAxioms.eqb_spec, FloatAxioms.ltb_spec, FloatAxioms.leb_spec,
    FloatAxioms.abs_spec.
  assert (H0 : Prim2SF 0 = S754_zero false) by (vm_compute; reflexivity).
  assert (He : Prim2SF 1e-6 = S754_finite false 4722366482869645 (-72))
    by (vm_compute; reflexivity).
  rewrite H0, He.
  destruct (Prim2SF x) as [s|s| |s m e]; try destruct s;
    cbv beta iota delta [SFeqb SFltb SFleb SFabs SFcompare]; intros H;
    first [discriminate H | split; reflexivity].
Qed.

End Divisors.

(** X9.  Neither division of the power-factor step is ever by zero (Python
    would raise [ZeroDivisionError]): a per-phase power factor is only
    produced when [U * I] is not zero, and a total power factor only when
    [S_total] is not zero. *)
Theorem power_factor_divisor_nonzero (py_sum : list float -> float) :
  (forall p u i pf : float,
     _pf_for_phase (Some p) (Some u) (Some i) = Some pf ->
     (u * i =? 0)%float = false) /\
  (forall (data data' : Snapshot) (pf : float),
     has_fields data (map rs_name REGISTER_TABLE) ->
     derive_power_factors py_sum data = Ret data' ->
     data' !! "PF_total" = Some (Some pf) ->
     (match apparent_terms data with
      | [] => 0
      | _ :: _ => py_sum (apparent_terms data)
      end =? 0)%float = false).
Proof.
  split.
  - intros p u i pf. unfold _pf_for_phase.
    destruct (PrimFloat.abs (u * i) <? 1e-6)%float eqn:Hlt; [discriminate|].
    intros _. destruct (u * i =? 0)%float eqn:Hz; [|reflexivity].
    destruct (float_zero_below_epsilon _ Hz) as [Habs _]. congruence.
  - intros data data' pf Hf Hrun Hpf.
    destruct (has_fields_register_table data Hf)
      as (pt & p1 & u1 & i1 & p2 & u2 & i2 & p3 & u3 & i3 &
          Ht & H1 & Hu1 & Hi1 & H2 & Hu2 & Hi2 & H3 & Hu3 & Hi3).
    destruct (derive_power_factors_run py_sum data _ _ _ _ _ _ _ _ _ _
                Ht H1 Hu1 Hi1 H2 Hu2 Hi2 H3 Hu3 Hi3) as (pft & Hrule & Hrun').
    rewrite Hrun' in Hrun. injection Hrun as <-.
    cbn in Hpf. rewrite lookup_insert_eq in Hpf. injection Hpf as ->.
    unfold pf_total_rule in Hrule. destruct pt as [p|]; [|discriminate].
    cbv zeta in Hrule. destruct Hrule as [Hnone _].
    match goal with |- (?S =? 0)%float = false =>
      destruct (S =? 0)%float eqn:Hz; [|reflexivity];
      destruct (float_zero_below_epsilon _ Hz) as [_ Hle];
      specialize (Hnone Hle); discriminate
    end.
Qed.

Lemma power_factor_divisor_nonzero_witness :
  (230 * 4.5 =? 0)%float = false.
Proof.
  apply (proj1 (power_factor_divisor_nonzero sum_left)
           1000%float 230%float 4.5%float 0.96618357487922701%float).
  reflexivity.
Defined.

(* ------------------------------------------------------------------------- *)
(** ** Derived fields agree with the stored readings *)



(* ------------------------------------------------------------------------- *)
(** ** The display step *)

Section DisplayFacts.

Variable format_float : nat -> float -> string.

Local Abbreviation NoneFormat :=
  (TypeError "unsupported format string passed to NoneType.__format__").

Lemma py_getitem_value (values : Snapshot) (key : string) (v : option float) :
  values !! key = Some v -> py_getitem values key = Ret v.
Proof. intros H. unfold py_getitem. rewrite H. reflexivity. Qed.

Lemma format_field_value (values : Snapshot) (key : string) (digits : nat)
    (v : option float) :
  values !! key = Some v ->
  format_field format_float values key digits =
    match v with
    | Some x => Ret (format_float digits x)
    | None => Raise NoneFormat
    end.
Proof. intros H. unfold format_field, py_getitem. rewrite H. reflexivity. Qed.

(** The printing stops at the first argument that raises. *)
Lemma print_all_type_error (lines : list (Res string)) :
  Forall line_or_type_error lines ->
  Exists (fun r => r = Raise NoneFormat) lines ->
  (print_all lines).2 = Raise NoneFormat.
Proof.
  intros Hall Hex. induction Hall as [|r lines Hr Hall IH].
  - inversion Hex.
  - destruct Hr as [[line ->]| ->]; [|reflexivity].
    cbn [print_all]. destruct (print_all lines) as [out res] eqn:Hp.
    cbn. apply Exists_cons in Hex as [Hex|Hex]; [discriminate|].
    apply IH. exact Hex.
Qed.

Lemma print_all_lines (lines : list string) :
  print_all (map Ret lines) = (lines, Ret tt).
Proof.
  induction lines as [|l lines IH]; [reflexivity|].
  cbn [map print_all]. rewrite IH. reflexivity.
Qed.

(** A phase line: it raises as soon as U, I or P is absent, whichever
    branch of the conditional is taken; with the three present it is a line,
    ending in the marker when the power factor is absent. *)
Lemma phase_line_value (values : Snapshot) (phase : string)
    (pf u i p : option float) :
  values !! String.append "PF_" phase = Some pf ->
  values !! String.append "U_" (String.append phase "_V") = Some u ->
  values !! String.append "I_" (String.append phase "_A") = Some i ->
  values !! String.append "P_" (String.append phase "_W") = Some p ->
  (u = None \/ i = None \/ p = None ->
     phase_line format_float values phase = Raise NoneFormat) /\
  (forall u' i' p' : float, u = Some u' -> i = Some i' -> p = Some p' ->
     exists line : string,
       phase_line format_float values phase = Ret line /\
       (pf = None -> exists head : string,
          line = String.append head "cos φ=NA")).
Proof.
  intros Hpf Hu Hi Hp. unfold phase_line. cbv zeta.
  rewrite (py_getitem_value _ _ _ Hpf). cbn [res_bind].
  rewrite (format_field_value _ _ _ _ Hu), (format_field_value _ _ _ _ Hi),
    (format_field_value _ _ _ _ Hp).
  split.
  - intros [-> | [-> | ->]]; [reflexivity| |].
    + destruct u; reflexivity.
    + destruct u, i; reflexivity.
  - intros u' i' p' -> -> ->. cbn [res_bind].
    destruct pf as [c|].
    + rewrite (format_field_value _ _ _ _ Hpf). cbn [res_bind].
      eexists. split; [reflexivity|discriminate].
    + eexists. split; [reflexivity|]. intros _. eexists. reflexivity.
Qed.

Lemma phase_energy_line_value (values : Snapshot) (phase : string)
    (f r : option float) :
  values !! String.append "E_" (String.append phase "_forward_kWh") = Some f ->
  values !! String.append "E_" (String.append phase "_reverse_kWh") = Some r ->
  (f = None \/ r = None ->
     phase_energy_line format_float values phase = Raise NoneFormat) /\
  (forall f' r' : float, f = Some f' -> r = Some r' ->
     exists line : string,
       phase_energy_line format_float values phase = Ret line).
Proof.
  intros Hf Hr. unfold phase_energy_line.
  rewrite (format_field_value _ _ _ _ Hf), (format_field_value _ _ _ _ Hr).
  split.
  - intros [-> | ->]; [reflexivity|]. destruct f; reflexivity.
  - intros f' r' -> ->. cbn [res_bind]. eexists. reflexivity.
Qed.

End DisplayFacts.

Section DisplayCycle.

Variable format_float : nat -> float -> string.

Local Abbreviation NoneFormat :=
  (TypeError "unsupported format string passed to NoneType.__format__").

(** The five lines that format one or two readings directly. *)
Lemma single_field_line (values : Snapshot) (key : string) (digits : nat)
    (v : option float) (k : string -> Res string) :
  values !! key = Some v ->
  (forall x : string, exists line : string, k x = Ret line) ->
  line_or_type_error (res_bind (format_field format_float values key digits) k) /\
  (v = None ->
     res_bind (format_field format_float values key digits) k = Raise NoneFormat).
Proof.
  intros Hv Hk. rewrite (format_field_value _ _ _ _ _ Hv).
  destruct v as [x|]; cbn [res_bind].
  - split; [left; apply Hk|discriminate].
  - split; [right; reflexivity|reflexivity].
Qed.

Lemma double_field_line (values : Snapshot) (key1 key2 : string)
    (d1 d2 : nat) (v1 v2 : option float) (k : string -> string -> Res string) :
  values !! key1 = Some v1 -> values !! key2 = Some v2 ->
  (forall x y : string, exists line : string, k x y = Ret line) ->
  let r :=
    res_bind (format_field format_float values key1 d1)
      (fun x => res_bind (format_field format_float values key2 d2) (k x)) in
  line_or_type_error r /\ (v1 = None \/ v2 = None -> r = Raise NoneFormat).
Proof.
  intros H1 H2 Hk r. unfold r.
  rewrite (format_field_value _ _ _ _ _ H1), (format_field_value _ _ _ _ _ H2).
  destruct v1 as [x|], v2 as [y|]; cbn [res_bind].
  - split; [left; apply Hk|]. intros [?|?]; discriminate.
  - split; [right; reflexivity|reflexivity].
  - split; [right; reflexivity|reflexivity].
  - split; [right; reflexivity|reflexivity].
Qed.

Lemma phase_line_outcome (values : Snapshot) (phase : string)
    (pf u i p : option float) :
  values !! String.append "PF_" phase = Some pf ->
  values !! String.append "U_" (String.append phase "_V") = Some u ->
  values !! String.append "I_" (String.append phase "_A") = Some i ->
  values !! String.append "P_" (String.append phase "_W") = Some p ->
  line_or_type_error (phase_line format_float values phase) /\
  (u = None \/ i = None \/ p = None ->
     phase_line format_float values phase = Raise NoneFormat).
Proof.
  intros Hpf Hu Hi Hp.
  destruct (phase_line_value format_float values phase pf u i p Hpf Hu Hi Hp)
    as [Hbad Hgood].
  split; [|exact Hbad].
  destruct u as [u'|]; [|right; apply Hbad; auto].
  destruct i as [i'|]; [|right; apply Hbad; auto].
  destruct p as [p'|]; [|right; apply Hbad; auto].
  destruct (Hgood u' i' p' eq_refl eq_refl eq_refl) as (line & Hline & _).
  left. eauto.
Qed.

Lemma phase_energy_line_outcome (values : Snapshot) (phase : string)
    (f r : option float) :
  values !! String.append "E_" (String.append phase "_forward_kWh") = Some f ->
  values !! String.append "E_" (String.append phase "_reverse_kWh") = Some r ->
  line_or_type_error (phase_energy_line format_float values phase) /\
  (f = None \/ r = None ->
     phase_energy_line format_float values phase = Raise NoneFormat).
Proof.
  intros Hf Hr.
  destruct (phase_energy_line_value format_float values phase f r Hf Hr)
    as [Hbad Hgood].
  split; [|exact Hbad].
  destruct f as [f'|]; [|right; apply Hbad; auto].
  destruct r as [r'|]; [|right; apply Hbad; auto].
  destruct (Hgood f' r' eq_refl eq_refl) as (line & Hline). left. eauto.
Qed.

Lemma total_pf_line (values : Snapshot) (pf : option float) :
  values !! "PF_total" = Some pf ->
  exists line : string,
    (let? pf := py_getitem values "PF_total" in
     match pf with
     | Some _ =>
         let? c := format_field format_float values "PF_total" 3 in
         Ret (String.append "Total power factor:        " c)
     | None => Ret "Total power factor:        NA"
     end) = Ret line /\
    (pf = None -> line = "Total power factor:        NA").
Proof.
  intros Hpf. rewrite (py_getitem_value _ _ _ Hpf). cbn [res_bind].
  destruct pf as [c|].
  - rewrite (format_field_value _ _ _ _ _ Hpf). cbn [res_bind].
    eexists. split; [reflexivity|discriminate].
  - eexists. split; reflexivity.
Qed.

Lemma single_field_line_raises (values : Snapshot) (key : string)
    (digits : nat) (v : option float) (k : string -> Res string) :
  values !! key = Some v -> v = None ->
  res_bind (format_field format_float values key digits) k = Raise NoneFormat.
Proof.
  intros Hv ->. rewrite (format_field_value _ _ _ _ _ Hv). reflexivity.
Qed.

Lemma double_field_line_raises (values : Snapshot) (key1 key2 : string)
    (d1 d2 : nat) (v1 v2 : option float) (k : string -> string -> Res string) :
  values !! key1 = Some v1 -> values !! key2 = Some v2 ->
  v1 = None \/ v2 = None ->
  res_bind (format_field format_float values key1 d1)
    (fun x => res_bind (format_field format_float values key2 d2) (k x)) =
  Raise NoneFormat.
Proof.
  intros H1 H2 Hnone.
  rewrite (format_field_value _ _ _ _ _ H1), (format_field_value _ _ _ _ _ H2).
  destruct Hnone as [-> | ->]; [reflexivity|]. destruct v1; reflexivity.
Qed.

End DisplayCycle.

Ltac fetch_field Hk key :=
  let v := fresh "v" in
  let H := fresh "Hv" in
  destruct (Hk key eq_refl) as [v H].

Ltac fetch_snapshot_fields Hk :=
  fetch_field Hk "P_total_W"; fetch_field Hk "E_total_forward_kWh";
  fetch_field Hk "E_total_reverse_kWh"; fetch_field Hk "U_PEN_V";
  fetch_field Hk "freq_Hz";
  fetch_field Hk "U_L1_V"; fetch_field Hk "I_L1_A"; fetch_field Hk "P_L1_W";
  fetch_field Hk "E_L1_forward_kWh"; fetch_field Hk "E_L1_reverse_kWh";
  fetch_field Hk "U_L2_V"; fetch_field Hk "I_L2_A"; fetch_field Hk "P_L2_W";
  fetch_field Hk "E_L2_forward_kWh"; fetch_field Hk "E_L2_reverse_kWh";
  fetch_field Hk "U_L3_V"; fetch_field Hk "I_L3_A"; fetch_field Hk "P_L3_W";
  fetch_field Hk "E_L3_forward_kWh"; fetch_field Hk "E_L3_reverse_kWh";
  fetch_field Hk "PF_L1"; fetch_field Hk "PF_L2"; fetch_field Hk "PF_L3";
  fetch_field Hk "PF_total".

Ltac line_outcome which :=
  first
    [ eapply which, single_field_line;
      [eassumption | intros; eexists; reflexivity]
    | eapply which, double_field_line;
      [eassumption | eassumption | intros; eexists; reflexivity]
    | eapply which, phase_line_outcome; eassumption
    | eapply which, phase_energy_line_outcome; eassumption ].

Ltac some_is_none :=
  first [ congruence
        | left; congruence
        | right; left; congruence
        | right; right; congruence
        | right; congruence ].

Ltac line_raises :=
  first
    [ eapply single_field_line_raises; [eassumption | some_is_none]
    | eapply double_field_line_raises;
      [eassumption | eassumption | some_is_none]
    | eapply phase_line_outcome; [eassumption .. | some_is_none]
    | eapply phase_energy_line_outcome; [eassumption .. | some_is_none] ].

(** With total active power present, one absent register reading makes the
    display raise. *)
Lemma display_absent_reading_type_error (format_float : nat -> float -> string)
    (values : Snapshot) :
  has_fields values SNAPSHOT_FIELDS ->
  py_get values "P_total_W" <> None ->
  (exists k : string,
     k ∈ map rs_name REGISTER_TABLE /\ values !! k = Some None) ->
  (display_cycle format_float values).2 =
    Raise (TypeError "unsupported format string passed to NoneType.__format__").
Proof.
  intros Hf Hpt (k & Hk & Hnone).
  pose proof (fun key => has_fields_lookup values _ key Hf) as Hall.
  fetch_snapshot_fields Hall. clear Hall.
  unfold display_cycle.
  destruct (py_get values "P_total_W") as [pt|] eqn:Hget; [|contradiction].
  assert (v = Some pt) as -> by (unfold py_get in Hget; rewrite Hv in Hget;
                                exact Hget).
  apply print_all_type_error.
  - repeat (apply Forall_cons; split);
      [left; eauto | line_outcome proj1 .. | | left; eauto | apply Forall_nil; exact I].
    destruct (total_pf_line format_float values _ Hv22) as (line & -> & _).
    left. eauto.
  - rewrite register_table_names in Hk.
    repeat (apply elem_of_cons in Hk as [-> | Hk]);
      [ congruence
      | do 2 apply Exists_cons_tl | do 2 apply Exists_cons_tl
      | do 4 apply Exists_cons_tl | do 3 apply Exists_cons_tl
      | do 5 apply Exists_cons_tl | do 5 apply Exists_cons_tl
      | do 5 apply Exists_cons_tl
      | do 6 apply Exists_cons_tl | do 6 apply Exists_cons_tl
      | do 7 apply Exists_cons_tl | do 7 apply Exists_cons_tl
      | do 7 apply Exists_cons_tl
      | do 8 apply Exists_cons_tl | do 8 apply Exists_cons_tl
      | do 9 apply Exists_cons_tl | do 9 apply Exists_cons_tl
      | do 9 apply Exists_cons_tl
      | do 10 apply Exists_cons_tl | do 10 apply Exists_cons_tl
      | apply elem_of_nil in Hk; contradiction ].
    all: apply Exists_cons_hd; line_raises.
Qed.

(** X12.  With total active power present, the display raises [TypeError]
    as soon as any of the other nineteen register readings is absent: the
    missing value is handed to a numeric format, in either branch of the
    phase lines, and no "not available" marker exists for it. *)
Theorem display_raises_on_absent_reading (format_float : nat -> float -> string)
    (values : Snapshot) :
  has_fields values SNAPSHOT_FIELDS ->
  py_get values "P_total_W" <> None ->
  (exists k : string,
     k ∈ map rs_name REGISTER_TABLE /\ values !! k = Some None) ->
  (display_cycle format_float values).2 =
    Raise (TypeError "unsupported format string passed to NoneType.__format__").
Proof.
  intros Hf Hpt Habsent.
  destruct (display_cycle format_float values) as [out r] eqn:Hd.
  pose proof (display_absent_reading_type_error format_float values
                Hf Hpt Habsent) as H.
  rewrite Hd in H. exact H.
Qed.

Lemma name_in_list (k : string) (l : list string) :
  bool_decide (k ∈ l) = true -> k ∈ l.
Proof. intros H. apply bool_decide_eq_true in H. exact H. Qed.

Lemma sample_partial_snapshot_has_fields :
  has_fields sample_partial_snapshot SNAPSHOT_FIELDS.
Proof.
  unfold has_fields, SNAPSHOT_FIELDS. rewrite register_table_names.
  repeat (apply Forall_cons; split);
    [unfold sample_partial_snapshot, sample_snapshot;
     rewrite !store_all_lookup_last; cbn; eauto ..|].
  apply Forall_nil. exact I.
Qed.

Lemma display_raises_on_absent_reading_witness :
  (display_cycle (fun _ _ => "?") sample_partial_snapshot).2 =
    Raise (TypeError "unsupported format string passed to NoneType.__format__").
Proof.
  apply (display_raises_on_absent_reading (fun _ _ => "?")
           sample_partial_snapshot sample_partial_snapshot_has_fields).
  - unfold py_get, sample_partial_snapshot, sample_snapshot.
    rewrite !store_all_lookup_last. cbn. discriminate.
  - exists "U_L3_V". split.
    + rewrite register_table_names. apply name_in_list. reflexivity.
    + unfold sample_partial_snapshot, sample_snapshot.
      rewrite !store_all_lookup_last. reflexivity.
Defined.

Ltac fetch_reading Hk key :=
  let x := fresh "x" in
  let H := fresh "Hx" in
  destruct (Hk key (name_in_list key (map rs_name REGISTER_TABLE) eq_refl))
    as [x H].

(** With every register reading present, the display is thirteen lines. *)
Lemma display_complete_lines (format_float : nat -> float -> string)
    (values : Snapshot) :
  all_readings_present values ->
  has_fields values POWER_FACTOR_FIELDS ->
  exists lines : list string,
    display_cycle format_float values = (lines, Ret tt) /\
    length lines = 13%nat /\
    (values !! "PF_L1" = Some None ->
       exists head : string, lines !! 5%nat = Some (String.append head "cos φ=NA")) /\
    (values !! "PF_L2" = Some None ->
       exists head : string, lines !! 7%nat = Some (String.append head "cos φ=NA")) /\
    (values !! "PF_L3" = Some None ->
       exists head : string, lines !! 9%nat = Some (String.append head "cos φ=NA")) /\
    (values !! "PF_total" = Some None ->
       lines !! 11%nat = Some "Total power factor:        NA").
Proof.
  intros Hreg Hpf. unfold all_readings_present in Hreg.
  fetch_reading Hreg "P_total_W"; fetch_reading Hreg "E_total_forward_kWh";
  fetch_reading Hreg "E_total_reverse_kWh"; fetch_reading Hreg "U_PEN_V";
  fetch_reading Hreg "freq_Hz".
  fetch_reading Hreg "U_L1_V"; fetch_reading Hreg "I_L1_A";
  fetch_reading Hreg "P_L1_W"; fetch_reading Hreg "E_L1_forward_kWh";
  fetch_reading Hreg "E_L1_reverse_kWh".
  fetch_reading Hreg "U_L2_V"; fetch_reading Hreg "I_L2_A";
  fetch_reading Hreg "P_L2_W"; fetch_reading Hreg "E_L2_forward_kWh";
  fetch_reading Hreg "E_L2_reverse_kWh".
  fetch_reading Hreg "U_L3_V"; fetch_reading Hreg "I_L3_A";
  fetch_reading Hreg "P_L3_W"; fetch_reading Hreg "E_L3_forward_kWh";
  fetch_reading Hreg "E_L3_reverse_kWh".
  pose proof (fun key => has_fields_lookup values _ key Hpf) as Hall.
  fetch_field Hall "PF_L1"; fetch_field Hall "PF_L2"; fetch_field Hall "PF_L3";
  fetch_field Hall "PF_total". clear Hall Hreg.
  destruct (proj2 (phase_line_value format_float values "L1" _ _ _ _
                     Hv Hx4 Hx5 Hx6) _ _ _ eq_refl eq_refl eq_refl)
    as (l1 & Hl1 & Hna1).
  destruct (proj2 (phase_line_value format_float values "L2" _ _ _ _
                     Hv0 Hx9 Hx10 Hx11) _ _ _ eq_refl eq_refl eq_refl)
    as (l2 & Hl2 & Hna2).
  destruct (proj2 (phase_line_value format_float values "L3" _ _ _ _
                     Hv1 Hx14 Hx15 Hx16) _ _ _ eq_refl eq_refl eq_refl)
    as (l3 & Hl3 & Hna3).
  destruct (proj2 (phase_energy_line_value format_float values "L1" _ _
                     Hx7 Hx8) _ _ eq_refl eq_refl) as (e1 & He1).
  destruct (proj2 (phase_energy_line_value format_float values "L2" _ _
                     Hx12 Hx13) _ _ eq_refl eq_refl) as (e2 & He2).
  destruct (proj2 (phase_energy_line_value format_float values "L3" _ _
                     Hx17 Hx18) _ _ eq_refl eq_refl) as (e3 & He3).
  destruct (total_pf_line format_float values _ Hv2) as (lt & Hlt & Hnat).
  unfold display_cycle, py_get. rewrite Hx.
  rewrite Hl1, Hl2, Hl3, He1, He2, He3, Hlt.
  rewrite (format_field_value _ _ _ _ _ Hx), (format_field_value _ _ _ _ _ Hx0),
    (format_field_value _ _ _ _ _ Hx1), (format_field_value _ _ _ _ _ Hx2),
    (format_field_value _ _ _ _ _ Hx3).
  cbn [res_bind].
  eexists. split; [apply (print_all_lines [_; _; _; _; _; _; _; _; _; _; _; _; _])|].
  split; [reflexivity|].
  repeat split; intros Hnone; cbn [lookup list_lookup].
  - destruct (Hna1 ltac:(congruence)) as [head ->]. eauto.
  - destruct (Hna2 ltac:(congruence)) as [head ->]. eauto.
  - destruct (Hna3 ltac:(congruence)) as [head ->]. eauto.
  - rewrite (Hnat ltac:(congruence)). reflexivity.
Qed.

(** X11.  A snapshot in which every register reading is present is
    displayed without any exception, as exactly thirteen lines; an absent
    power factor is printed as the marker [NA] (at the end of its phase
    line, resp. as the total power factor line). *)
Theorem display_complete_snapshot (format_float : nat -> float -> string)
    (values : Snapshot) :
  all_readings_present values ->
  has_fields values POWER_FACTOR_FIELDS ->
  exists lines : list string,
    display_cycle format_float values = (lines, Ret tt) /\
    length lines = 13%nat /\
    (values !! "PF_L1" = Some None ->
       exists head : string, lines !! 5%nat = Some (String.append head "cos φ=NA")) /\
    (values !! "PF_L2" = Some None ->
       exists head : string, lines !! 7%nat = Some (String.append head "cos φ=NA")) /\
    (values !! "PF_L3" = Some None ->
       exists head : string, lines !! 9%nat = Some (String.append head "cos φ=NA")) /\
    (values !! "PF_total" = Some None ->
       lines !! 11%nat = Some "Total power factor:        NA").
Proof.
  intros Hreg Hpf.
  destruct (display_complete_lines format_float values Hreg Hpf)
    as (lines & Hlines & Hlen & Hmarkers).
  exists lines. split; [exact Hlines|]. split; [exact Hlen|]. exact Hmarkers.
Qed.

Lemma sample_complete_snapshot_readings :
  all_readings_present sample_complete_snapshot.
Proof.
  intros k Hk. rewrite register_table_names in Hk.
  repeat (apply elem_of_cons in Hk as [-> | Hk]);
    [unfold sample_complete_snapshot, sample_snapshot;
     rewrite !store_all_lookup_last; cbn; eauto ..|].
  apply elem_of_nil in Hk. contradiction.
Qed.

Lemma sample_complete_snapshot_power_factors :
  has_fields sample_complete_snapshot POWER_FACTOR_FIELDS.
Proof.
  unfold has_fields, POWER_FACTOR_FIELDS.
  repeat (apply Forall_cons; split);
    [unfold sample_complete_snapshot, sample_snapshot;
     rewrite !store_all_lookup_last; cbn; eauto ..|].
  apply Forall_nil. exact I.
Qed.

Lemma display_complete_snapshot_witness :
  exists lines : list string,
    display_cycle (fun _ _ => "?") sample_complete_snapshot = (lines, Ret tt) /\
    length lines = 13%nat /\
    (sample_complete_snapshot !! "PF_L1" = Some None ->
       exists head : string, lines !! 5%nat = Some (String.append head "cos φ=NA")) /\
    (sample_complete_snapshot !! "PF_L2" = Some None ->
       exists head : string, lines !! 7%nat = Some (String.append head "cos φ=NA")) /\
    (sample_complete_snapshot !! "PF_L3" = Some None ->
       exists head : string, lines !! 9%nat = Some (String.append head "cos φ=NA")) /\
    (sample_complete_snapshot !! "PF_total" = Some None ->
       lines !! 11%nat = Some "Total power factor:        NA").
Proof.
  apply (display_complete_snapshot (fun _ _ => "?") sample_complete_snapshot
           sample_complete_snapshot_readings
           sample_complete_snapshot_power_factors).
Defined.

(* ------------------------------------------------------------------------- *)
(** ** The main loop *)

Section MainLoop.

Variable py_sum : list float -> float.
Variable format_float : nat -> float -> string.
Context {St : Type} (client : ModbusUdpClient St).

(** A poll under the transport contract, field by field. *)
Lemma read_all_field_by_field (s : St) :
  well_formed client ->
  exists (accs : list (option (list Z))) (vs : list (option float))
         (data : Snapshot) (s' : St),
    access_trace client REGISTER_TABLE s accs s' /\
    read_all py_sum client s = Ret (data, s') /\
    dom data = list_to_set SNAPSHOT_FIELDS /\
    Forall3 (fun e acc v =>
               field_of_access e acc v /\ data !! rs_name e = Some v)
      REGISTER_TABLE accs vs.
Proof.
  intros Hwf.
  destruct (read_all_run py_sum client s Hwf)
    as (accs & vs & pfs & s' & Htrace & Hfields & Hpfs & Hrun).
  pose proof (Forall3_length_lr _ _ _ _ Hfields) as Hlen.
  assert (Hlen' : length SNAPSHOT_FIELDS = length (vs ++ pfs))
    by (rewrite length_app, <- Hlen, Hpfs; reflexivity).
  exists accs, vs, (store_all (zip SNAPSHOT_FIELDS (vs ++ pfs)) ∅), s'.
  split; [exact Htrace|]. split; [exact Hrun|]. split.
  { rewrite store_all_dom, fst_zip by lia. set_solver. }
  apply Forall3_and_Forall2; [exact Hfields|].
  pose proof (store_all_lookup_zip SNAPSHOT_FIELDS (vs ++ pfs) ∅ Hlen'
                snapshot_fields_NoDup) as Hall.
  unfold SNAPSHOT_FIELDS in Hall at 2.
  apply Forall2_app_inv in Hall as [Hall _];
    [|rewrite length_map; exact Hlen].
  apply Forall2_fmap_l in Hall. exact Hall.
Qed.

(** The poll's [P_total_W] is decided by the first access. *)
Lemma read_all_total_power (s s1 : St) (acc : option (list Z)) :
  well_formed client ->
  read_input_or_holding client 0x3080 2 s = Ret (acc, s1) ->
  exists (data : Snapshot) (s' : St),
    read_all py_sum client s = Ret (data, s') /\
    (acc = None -> data !! "P_total_W" = Some None) /\
    (acc <> None -> exists x : float, data !! "P_total_W" = Some (Some x)).
Proof.
  intros Hwf Hacc.
  destruct (read_all_field_by_field s Hwf)
    as (accs & vs & data & s' & Htrace & Hrun & _ & Hfields).
  exists data, s'. split; [exact Hrun|].
  unfold REGISTER_TABLE in Htrace, Hfields. cbn [app] in Htrace, Hfields.
  inversion Htrace as [|e table s0 s2 s3 acc0 accs0 Hacc0 _]; subst.
  cbn [rs_address rs_words] in Hacc0. rewrite Hacc in Hacc0.
  injection Hacc0 as <- <-.
  inversion Hfields as [|? ? ? ? ? ? [Hfield Hlookup] _]; subst.
  cbn [rs_name] in Hlookup. split.
  - intros ->. cbn in Hfield. subst. exact Hlookup.
  - intros Hsome. destruct acc as [regs|]; [|contradiction].
    destruct Hfield as (raw & _ & ->). eauto.
Qed.

(** X13.  A cycle in which total active power cannot be read in either
    register space prints the single diagnostic line, whatever the other
    reads gave, sleeps one second, and the loop goes on with the next
    pass. *)
Theorem loop_continues_after_total_failure (s s1 : St) :
  well_formed client ->
  read_input_or_holding client 0x3080 2 s = Ret (None, s1) ->
  exists (values : Snapshot) (s' : St),
    read_all py_sum client s = Ret (values, s') /\
    display_cycle format_float values = ([READ_ERROR_LINE], Ret tt) /\
    forall passes : nat,
      poll_loop py_sum format_float client (S passes) s =
        (Printed READ_ERROR_LINE :: Slept 1.0
           :: (poll_loop py_sum format_float client passes s').1,
         (poll_loop py_sum format_float client passes s').2).
Proof.
  intros Hwf Hacc.
  destruct (read_all_total_power s s1 None Hwf Hacc)
    as (values & s' & Hrun & Hnone & _).
  specialize (Hnone eq_refl).
  assert (Hdisplay :
    display_cycle format_float values = ([READ_ERROR_LINE], Ret tt)).
  { unfold display_cycle, py_get. rewrite Hnone. reflexivity. }
  exists values, s'. split; [exact Hrun|]. split; [exact Hdisplay|].
  intros passes. cbn [poll_loop]. rewrite Hrun, Hdisplay.
  destruct (poll_loop py_sum format_float client passes s'). reflexivity.
Qed.

End MainLoop.

Lemma loop_continues_after_total_failure_witness :
  exists (values : Snapshot) (log : list Request),
    read_all sum_left (logging_client (meter_device sample_mem total_dead)) [] =
      Ret (values, log) /\
    display_cycle (fun _ _ => "?") values = ([READ_ERROR_LINE], Ret tt) /\
    forall passes : nat,
      poll_loop sum_left (fun _ _ => "?")
        (logging_client (meter_device sample_mem total_dead)) (S passes) [] =
        (Printed READ_ERROR_LINE :: Slept 1.0
           :: (poll_loop sum_left (fun _ _ => "?")
                 (logging_client (meter_device sample_mem total_dead))
                 passes log).1,
         (poll_loop sum_left (fun _ _ => "?")
            (logging_client (meter_device sample_mem total_dead))
            passes log).2).
Proof.
  apply (loop_continues_after_total_failure sum_left (fun _ _ => "?")
           (logging_client (meter_device sample_mem total_dead)) []
           [(InputRegisters, 0x3080, 2); (HoldingRegisters, 0x3080, 2)]).
  - apply meter_device_well_formed.
  - reflexivity.
Defined.

Section MainOutcomes.

Variable py_sum : list float -> float.
Variable format_float : nat -> float -> string.
Context {St : Type} (client : ModbusUdpClient St) (connection : Connection St).

Lemma read_all_has_fields (s s' : St) (values : Snapshot) :
  well_formed client ->
  read_all py_sum client s = Ret (values, s') ->
  has_fields values SNAPSHOT_FIELDS.
Proof.
  intros Hwf Hrun.
  destruct (read_all_dom py_sum client s Hwf) as (data & s2 & Hrun' & Hdom).
  rewrite Hrun in Hrun'. injection Hrun' as <- <-.
  unfold has_fields. apply Forall_forall. intros k Hk.
  apply elem_of_dom. rewrite Hdom. apply elem_of_list_to_set. exact Hk.
Qed.

(** X15.  When a poll delivers total active power but misses any other
    register reading, [main] does not survive the pass: the display's
    [TypeError] leaves the loop, the [finally] clause closes the client, and
    no later pass takes place, however long the program is observed. *)
Theorem main_stops_on_absent_reading (s0 s s' : St) (values : Snapshot) :
  well_formed client ->
  connect connection s0 = (true, s) ->
  read_all py_sum client s = Ret (values, s') ->
  py_get values "P_total_W" <> None ->
  (exists k : string,
     k ∈ map rs_name REGISTER_TABLE /\ values !! k = Some None) ->
  exists out : list string,
    forall passes : nat,
      main py_sum format_float client connection (S passes) s0 =
        (map Printed out ++ [Closed],
         Propagated
           (TypeError "unsupported format string passed to NoneType.__format__")).
Proof.
  intros Hwf Hconnect Hrun Hpt Habsent.
  pose proof (read_all_has_fields s s' values Hwf Hrun) as Hf.
  pose proof (display_absent_reading_type_error format_float values
                Hf Hpt Habsent) as Hraise.
  destruct (display_cycle format_float values) as [out r] eqn:Hd.
  cbn in Hraise. subst r.
  exists out. intros passes. unfold main. rewrite Hconnect. cbn [negb poll_loop].
  rewrite Hrun, Hd. reflexivity.
Qed.

End MainOutcomes.

Lemma main_stops_on_absent_reading_witness :
  exists out : list string,
    forall passes : nat,
      main sum_left (fun _ _ => "?")
        (logging_client (meter_device sample_mem freq_dead))
        (plain_connection true) (S passes) [] =
        (map Printed out ++ [Closed],
         Propagated
           (TypeError "unsupported format string passed to NoneType.__format__")).
Proof.
  assert (H :
    match read_all sum_left
            (logging_client (meter_device sample_mem freq_dead)) [] with
    | Ret (values, _) =>
        py_get values "P_total_W" <> None /\ values !! "freq_Hz" = Some None
    | Raise _ => False
    end) by (vm_compute; split; [discriminate|reflexivity]).
  destruct (read_all sum_left
              (logging_client (meter_device sample_mem freq_dead)) [])
    as [[values log]|e] eqn:Hrun; [|contradiction].
  destruct H as [Hpt Hfreq].
  apply (main_stops_on_absent_reading sum_left (fun _ _ => "?")
           (logging_client (meter_device sample_mem freq_dead))
           (plain_connection true) [] [] log values).
  - apply meter_device_well_formed.
  - reflexivity.
  - exact Hrun.
  - exact Hpt.
  - exists "freq_Hz". split; [|exact Hfreq].
    apply name_in_list. reflexivity.
Defined.

Section ServedLoop.

Variable py_sum : list float -> float.
Variable format_float : nat -> float -> string.
Context {St : Type} (client : ModbusUdpClient St).

Lemma access_trace_served (table : list RegisterSpec) (s s' : St)
    (accs : list (option (list Z))) :
  always_serves client -> Forall one_or_two_words table ->
  access_trace client table s accs s' ->
  Forall (fun acc => acc <> None) accs.
Proof.
  intros Hserve Hwords Htrace.
  induction Htrace as [s|e table s s1 s2 acc accs Hacc _ IH]; [constructor|].
  apply Forall_cons in Hwords as [He Hwords].
  constructor; [|apply IH; exact Hwords].
  assert (Hpos : 0 < rs_words e) by (destruct He as [-> | ->]; lia).
  destruct (Hserve (rs_address e) (rs_words e) s Hpos) as (r & s3 & Hread & Herr).
  revert Hacc. unfold read_input_or_holding, m_bind, m_call, m_ret.
  rewrite Hread. cbn. rewrite Herr. cbn. intros [= <- _]. discriminate.
Qed.

Lemma served_fields_present (data : Snapshot) (table : list RegisterSpec)
    (accs : list (option (list Z))) (vs : list (option float)) :
  Forall (fun acc => acc <> None) accs ->
  Forall3 (fun e acc v =>
             field_of_access e acc v /\ data !! rs_name e = Some v)
    table accs vs ->
  Forall (fun e => exists x : float, data !! rs_name e = Some (Some x)) table.
Proof.
  intros Hsome H3. induction H3 as [|e acc v table accs vs [Hf Hl] _ IH];
    [constructor|].
  apply Forall_cons in Hsome as [Hacc Hsome].
  constructor; [|apply IH; exact Hsome].
  destruct acc as [regs|]; [|contradiction].
  destruct Hf as (raw & _ & ->). eauto.
Qed.

(** A poll of a transport that always serves: every reading is present. *)
Lemma read_all_served (s : St) :
  well_formed client -> always_serves client ->
  exists (values : Snapshot) (s' : St),
    read_all py_sum client s = Ret (values, s') /\
    all_readings_present values /\
    has_fields values POWER_FACTOR_FIELDS.
Proof.
  intros Hwf Hserve.
  destruct (read_all_field_by_field py_sum client s Hwf)
    as (accs & vs & data & s' & Htrace & Hrun & Hdom & Hfields).
  exists data, s'. split; [exact Hrun|]. split.
  - pose proof (access_trace_served _ _ _ _ Hserve register_table_words Htrace)
      as Hsome.
    pose proof (served_fields_present _ _ _ _ Hsome Hfields) as Hall.
    intros k Hk. apply list_elem_of_fmap_1 in Hk as (e & -> & He).
    rewrite Forall_forall in Hall. apply Hall. exact He.
  - unfold has_fields. apply Forall_forall. intros k Hk.
    apply elem_of_dom. rewrite Hdom. apply elem_of_list_to_set.
    unfold SNAPSHOT_FIELDS. apply elem_of_app. right. exact Hk.
Qed.

(** X14.  As long as the transport serves every read (and keeps its
    contract), the loop never leaves: after any number of passes [main] is
    still inside [while True], having printed thirteen lines and slept once
    per pass. *)
Theorem loop_runs_while_served (passes : nat) (s : St) :
  well_formed client -> always_serves client ->
  (poll_loop py_sum format_float client passes s).2 = StillRunning /\
  length (poll_loop py_sum format_float client passes s).1 = (14 * passes)%nat.
Proof.
  intros Hwf Hserve. revert s.
  induction passes as [|passes IH]; intros s; [split; reflexivity|].
  destruct (read_all_served s Hwf Hserve) as (values & s' & Hrun & Hreg & Hpf).
  destruct (display_complete_lines format_float values Hreg Hpf)
    as (lines & Hlines & Hlen & _).
  cbn [poll_loop]. rewrite Hrun, Hlines.
  destruct (IH s') as [Hend Hcount].
  destruct (poll_loop py_sum format_float client passes s') as [events ending].
  cbn in *. split; [exact Hend|].
  rewrite length_app, length_map, Hlen. cbn. rewrite Hcount. lia.
Qed.

End ServedLoop.

Lemma meter_always_serves (mem : Z -> Z) :
  always_serves (logging_client (meter_device mem no_dead)).
Proof.
  intros address count log Hpos. cbn. unfold meter_device, no_dead.
  destruct (Z.leb_spec count 0) as [Hle|_]; [lia|]. eauto.
Qed.

Lemma loop_runs_while_served_witness :
  (poll_loop sum_left (fun _ _ => "?")
     (logging_client (meter_device sample_mem no_dead)) 3 []).2 = StillRunning /\
  length (poll_loop sum_left (fun _ _ => "?")
            (logging_client (meter_device sample_mem no_dead)) 3 []).1 =
    (14 * 3)%nat.
Proof.
  apply (loop_runs_while_served sum_left (fun _ _ => "?")
           (logging_client (meter_device sample_mem no_dead)) 3 []).
  - apply meter_device_well_formed.
  - apply meter_always_serves.
Defined.
